(** * CometAPI provider: model catalog resolution and completion streaming

    A shallow embedding of
      - [src/api/providers/fetchers/cometapi.ts]  (catalog resolver),
      - [src/api/providers/cometapi.ts]           (completion handler),
      - the two static model tables shipped with the types package,
    followed by the properties the specification states about them.

    Conventions of the embedding.
      - A JavaScript value of type [any] (a caught error, a decoded JSON
        body) is a [JS.value].  Numbers inside such values are status
        codes, counters and timestamps; they are integers, and a template
        literal writes an integer of magnitude below 10^21 as its decimal
        numeral.  Symbols, functions, accessors and proxies do not occur.
      - Token counts and context windows are integers ([Z]); prices, costs
        and temperatures are IEEE binary64 numbers ([float]).
      - A computation that may throw returns a [JS.completion]; [try/catch]
        is [JS.try_catch].
      - A [Record<string, ModelInfo>] is a [gmap string ModelInfo].
      - Strings are sequences of 8-bit characters; [toLowerCase] acts on the
        ASCII letters, which is what model identifiers are made of.  A
        model identifier is an ordinary property name (not [__proto__] or
        a member of [Object.prototype]).
      - [Handler] reads the client's answers at their declared types;
        [Wire] reads them as they arrive, where [choices] can be missing. *)

From Stdlib Require Import ZArith List Bool Ascii String DecimalString Floats Lia.
From stdpp Require Import base option gmap strings.
Import ListNotations.

Set Warnings "-register-all,-inexact-float".
Local Open Scope string_scope.
Local Open Scope Z_scope.

(* ===================================================================== *)
(** ** JavaScript values and the operators the sources apply to them      *)
(* ===================================================================== *)

Module JS.

(** The prototype of an object: a plain object, or an instance of [Error]
    or of one of its subclasses (the prototype supplies [name]). *)
Inductive class :=
| ObjectClass
| ErrorClass (name : string).

Inductive value :=
| VUndefined
| VNull
| VBool (b : bool)
| VNum (n : Z)
| VStr (s : string)
| VArr (items : list value)
| VObj (c : class) (fields : list (string * value)).

(** Outcome of evaluating an expression or a block: a value, or a throw. *)
Inductive completion (A : Type) :=
| Normal (a : A)
| Throw (e : value).
Arguments Normal {A} a.
Arguments Throw {A} e.

Definition bind {A B} (m : completion A) (k : A -> completion B) : completion B :=
  match m with
  | Normal a => k a
  | Throw e => Throw e
  end.

(** [try { body } catch (e) { handler(e) }] *)
Definition try_catch {A} (body : completion A) (handler : value -> completion A)
  : completion A :=
  match body with
  | Normal a => Normal a
  | Throw e => handler e
  end.

(** [new Error(message)] and the errors the runtime itself throws. *)
Definition newError (message : string) : value :=
  VObj (ErrorClass "Error") [("message", VStr message)].

Definition TypeError (message : string) : value :=
  VObj (ErrorClass "TypeError") [("message", VStr message)].

Definition SyntaxError (message : string) : value :=
  VObj (ErrorClass "SyntaxError") [("message", VStr message)].

(** Own-property lookup in an object's field list. *)
Fixpoint lookup_field (k : string) (fields : list (string * value)) : option value :=
  match fields with
  | [] => None
  | (k', v) :: rest => if String.eqb k k' then Some v else lookup_field k rest
  end.

(** [v[k]] for a [v] that is neither [undefined] nor [null].  An object
    answers with its own field, then with what its prototype supplies
    ([Error.prototype.name], [Error.prototype.message]); the property names
    the sources read are not properties of primitives or arrays. *)
Definition get (v : value) (k : string) : value :=
  match v with
  | VObj c fields =>
      match lookup_field k fields with
      | Some x => x
      | None =>
          match c with
          | ErrorClass name =>
              if String.eqb k "name" then VStr name
              else if String.eqb k "message" then VStr ""
              else VUndefined
          | ObjectClass => VUndefined
          end
      end
  | _ => VUndefined
  end.

(** [v == null]: the test an optional chain makes before each step. *)
Definition is_nullish (v : value) : bool :=
  match v with
  | VUndefined | VNull => true
  | _ => false
  end.

(** [v?.k] *)
Definition optGet (v : value) (k : string) : value :=
  match v with
  | VUndefined | VNull => VUndefined
  | _ => get v k
  end.

(** [v.k]: a TypeError when [v] is [undefined] or [null]. *)
Definition getProp (v : value) (k : string) : completion value :=
  match v with
  | VUndefined | VNull => Throw (TypeError "Cannot read properties of undefined")
  | _ => Normal (get v k)
  end.

(** ToBoolean. *)
Definition truthy (v : value) : bool :=
  match v with
  | VUndefined | VNull => false
  | VBool b => b
  | VNum n => negb (n =? 0)
  | VStr s => negb (String.eqb s "")
  | VArr _ | VObj _ _ => true
  end.

(** [a || b] *)
Definition or (a b : value) : value := if truthy a then a else b.

(** [v === n] for a number literal [n]. *)
Definition strictEqNum (v : value) (n : Z) : bool :=
  match v with
  | VNum m => m =? n
  | _ => false
  end.

(** Number::toString on an integer. *)
Definition Number_toString (n : Z) : string :=
  NilZero.string_of_int (Z.to_int n).

(** ToString, as a template literal applies it.  An array joins its
    elements with commas ([undefined] and [null] elements are empty); an
    [Error] instance answers [name: message] by [Error.prototype.toString];
    a plain object answers [[object Object]]. *)
Fixpoint ToString (v : value) : string :=
  match v with
  | VUndefined => "undefined"
  | VNull => "null"
  | VBool true => "true"
  | VBool false => "false"
  | VNum n => Number_toString n
  | VStr s => s
  | VArr items =>
      let element (x : value) : string :=
        match x with
        | VUndefined | VNull => ""
        | _ => ToString x
        end in
      (fix join (xs : list value) : string :=
         match xs with
         | [] => ""
         | [x] => element x
         | x :: rest => element x ++ "," ++ join rest
         end) items
  | VObj ObjectClass _ => "[object Object]"
  | VObj (ErrorClass proto_name) fields =>
      let own (k : string) : option string :=
        (fix find (fs : list (string * value)) : option string :=
           match fs with
           | [] => None
           | (k', x) :: rest =>
               if String.eqb k k'
               then Some (match x with VUndefined => "" | _ => ToString x end)
               else find rest
           end) fields in
      let name :=
        match lookup_field "name" fields with
        | Some VUndefined => "Error"
        | Some _ => default "" (own "name")
        | None => proto_name
        end in
      let msg := default "" (own "message") in
      if String.eqb name "" then msg
      else if String.eqb msg "" then name
      else name ++ ": " ++ msg
  end.

(** A template literal [`${v}`] spliced between string pieces. *)
Definition tmpl (v : value) : string := ToString v.

End JS.

(* ===================================================================== *)
(** ** String methods                                                     *)
(* ===================================================================== *)

Module Str.

(** [s.startsWith(p)] *)
Fixpoint startsWith (s p : string) : bool :=
  match p, s with
  | EmptyString, _ => true
  | String a p', String b s' => Ascii.eqb a b && startsWith s' p'
  | String _ _, EmptyString => false
  end.

(** [s.includes(p)] *)
Fixpoint includes (s p : string) : bool :=
  startsWith s p ||
  match s with
  | EmptyString => false
  | String _ s' => includes s' p
  end.

(** One character of [toLowerCase]: the letters [A]..[Z] (codes 65..90)
    move to [a]..[z]. *)
Definition lower_char (c : ascii) : ascii :=
  let n := nat_of_ascii c in
  if (Nat.leb 65 n && Nat.leb n 90)%bool then ascii_of_nat (n + 32) else c.

(** [s.toLowerCase()] *)
Fixpoint toLowerCase (s : string) : string :=
  match s with
  | EmptyString => EmptyString
  | String c s' => String (lower_char c) (toLowerCase s')
  end.

(** [patterns.some(p => test(p))] *)
Definition some {A} (test : A -> bool) (xs : list A) : bool := existsb test xs.

(** The line feed written [\n] in the sources. *)
Definition LF : string := String (ascii_of_nat 10) EmptyString.

End Str.

(* ===================================================================== *)
(** ** Shared types and the static model tables                           *)
(* ===================================================================== *)

Module Types.

(** [ModelInfo]: the fields the provider reads or writes. *)
Record ModelInfo := {
  maxTokens : option Z;
  contextWindow : Z;
  supportsImages : bool;
  supportsPromptCache : bool;
  inputPrice : option float;
  outputPrice : option float;
  description : string;
}.

(** [ApiHandlerOptions]: the settings the provider reads. *)
Record ApiHandlerOptions := {
  cometApiKey : option string;
  cometApiBaseUrl : option string;
  cometApiModelId : option string;
  modelTemperature : option float;
}.

End Types.

(** The table whose default model is [claude-3-5-sonnet-20241022]. *)
Module StaticClaude.

Definition cometApiDefaultModelId : string := "claude-3-5-sonnet-20241022".

Definition cometApiModels : gmap string Types.ModelInfo :=
  <["claude-3-5-sonnet-20241022" :=
      {| Types.maxTokens := Some 8192;
         Types.contextWindow := 200000;
         Types.supportsImages := true;
         Types.supportsPromptCache := false;
         Types.inputPrice := Some 3.0%float;
         Types.outputPrice := Some 15.0%float;
         Types.description := "Anthropic's Claude 3.5 Sonnet via CometAPI" |}]>
  (<["claude-3-5-haiku-20241022" :=
      {| Types.maxTokens := Some 8192;
         Types.contextWindow := 200000;
         Types.supportsImages := true;
         Types.supportsPromptCache := false;
         Types.inputPrice := Some 1.0%float;
         Types.outputPrice := Some 5.0%float;
         Types.description := "Anthropic's Claude 3.5 Haiku via CometAPI" |}]> ∅).

End StaticClaude.

(** The table with the single entry [cometapi-3-7-sonnet], which is also
    its default ([Object.keys(cometApiModels)[0]]). *)
Module StaticComet.

Definition cometApiModels : gmap string Types.ModelInfo :=
  <["cometapi-3-7-sonnet" :=
      {| Types.maxTokens := Some 8192;
         Types.contextWindow := 200000;
         Types.supportsImages := true;
         Types.supportsPromptCache := false;
         Types.inputPrice := Some 3.0%float;
         Types.outputPrice := Some 15.0%float;
         Types.description := "Anthropic's Claude 3.7 Sonnet via CometAPI" |}]> ∅.

Definition cometApiDefaultModelId : string := "cometapi-3-7-sonnet".

End StaticComet.

(* ===================================================================== *)
(** ** The catalog resolver ([fetchers/cometapi.ts])                      *)
(* ===================================================================== *)

Module Fetcher.

Import JS.

(** A field validated by [.nullish()]: missing, [null], or present. *)
Inductive nullish (A : Type) :=
| Absent
| IsNull
| Present (a : A).
Arguments Absent {A}.
Arguments IsNull {A}.
Arguments Present {A} a.

(** *** [cometApiModelSchema] and [cometApiModelsResponseSchema] *)

Record Architecture := {
  modality : nullish string;
  tokenizer : nullish string;
}.

Record Pricing := {
  prompt : nullish string;
  completion : nullish string;
}.

Record cometApiModel := {
  id : string;
  object : option string;
  created : option Z;
  owned_by : option string;
  name : option string;
  description : option string;
  context_length : option Z;
  max_tokens : option Z;
  architecture : option Architecture;
  pricing : option Pricing;
}.

Record cometApiModelsResponse := {
  data : list cometApiModel;
  success : option bool;
}.

(** The validators: [None] is a validation issue. *)
Definition z_string (v : value) : option string :=
  match v with VStr s => Some s | _ => None end.

Definition z_number (v : value) : option Z :=
  match v with VNum n => Some n | _ => None end.

Definition z_boolean (v : value) : option bool :=
  match v with VBool b => Some b | _ => None end.

Definition z_optional {A} (schema : value -> option A) (v : value) : option (option A) :=
  match v with
  | VUndefined => Some None
  | _ => option_map Some (schema v)
  end.

Definition z_nullish {A} (schema : value -> option A) (v : value) : option (nullish A) :=
  match v with
  | VUndefined => Some Absent
  | VNull => Some IsNull
  | _ => option_map Present (schema v)
  end.

(** [z.object(shape)]: the input must be an object; each key of the shape
    is read from it and validated, unknown keys are dropped. *)
Definition z_object {A} (shape : (string -> value) -> option A) (v : value) : option A :=
  match v with
  | VObj _ _ => shape (get v)
  | _ => None
  end.

Definition z_array {A} (schema : value -> option A) (v : value) : option (list A) :=
  match v with
  | VArr items => mapM schema items
  | _ => None
  end.

Definition architectureSchema : value -> option Architecture :=
  z_object (fun field =>
    m ← z_nullish z_string (field "modality");
    t ← z_nullish z_string (field "tokenizer");
    Some {| modality := m; tokenizer := t |}).

Definition pricingSchema : value -> option Pricing :=
  z_object (fun field =>
    p ← z_nullish z_string (field "prompt");
    c ← z_nullish z_string (field "completion");
    Some {| prompt := p; completion := c |}).

Definition cometApiModelSchema : value -> option cometApiModel :=
  z_object (fun field =>
    i ← z_string (field "id");
    o ← z_optional z_string (field "object");
    cr ← z_optional z_number (field "created");
    ow ← z_optional z_string (field "owned_by");
    n ← z_optional z_string (field "name");
    d ← z_optional z_string (field "description");
    cl ← z_optional z_number (field "context_length");
    mt ← z_optional z_number (field "max_tokens");
    a ← z_optional architectureSchema (field "architecture");
    p ← z_optional pricingSchema (field "pricing");
    Some {| id := i; object := o; created := cr; owned_by := ow; name := n;
            description := d; context_length := cl; max_tokens := mt;
            architecture := a; pricing := p |}).

Definition cometApiModelsResponseSchema : value -> option cometApiModelsResponse :=
  z_object (fun field =>
    d ← z_array cometApiModelSchema (field "data");
    s ← z_optional z_boolean (field "success");
    Some {| data := d; success := s |}).

(** [schema.safeParse(data)] *)
Definition safeParse {A} (schema : value -> option A) (data : value) : option A :=
  schema data.

(** *** [isTextGenerationModel] *)

Definition imageGenPatterns : list string :=
  [ "dall-e"; "dalle"; "midjourney"; "stable-diffusion"; "sd-"; "flux-";
    "playground-v"; "ideogram"; "recraft"; "black-forest-labs" ].

Definition prefixPatterns : list string :=
  [ "tts"; "mj_"; "veo"; "runway"; "suno"; "kling_" ].

Definition isTextGenerationModel (modelId : string) : bool :=
  let id := Str.toLowerCase modelId in
  let hasFilteredPrefix := Str.some (fun prefix => Str.startsWith id prefix) prefixPatterns in
  let hasFilteredPattern := Str.some (fun pattern => Str.includes id pattern) imageGenPatterns in
  negb hasFilteredPrefix && negb hasFilteredPattern.

(** *** [getCometAPIModels] *)

(** The request handed to [fetch], and what [fetch] answers. *)
Record Request := {
  url : string;
  method : string;
  headers : list (string * string);
  timeout : Z;
}.

Record Response := {
  ok : bool;
  status : Z;
  json : JS.completion value;   (* [await response.json()] *)
}.

(** What the resolver hands back, together with the requests it issued. *)
Record Resolution := {
  returned : JS.completion (gmap string Types.ModelInfo);
  requests : list Request;
}.

Section Resolver.

(** The imported static table, the imported price parser
    ([string | null | undefined -> number | undefined], never throws),
    and the network: [fetch] resolves to a response or rejects. *)
Variable cometApiModels : gmap string Types.ModelInfo.
Variable parseApiPrice : nullish string -> option float.
Variable fetch : Request -> JS.completion Response.

(** [model.pricing?.prompt] and [model.pricing?.completion] *)
Definition pricing_prompt (model : cometApiModel) : nullish string :=
  match pricing model with Some p => prompt p | None => Absent end.

Definition pricing_completion (model : cometApiModel) : nullish string :=
  match pricing model with Some p => completion p | None => Absent end.

(** The body of the loop after the filter: the entry stored under
    [model.id]. *)
Definition synthesize (model : cometApiModel) : Types.ModelInfo :=
  let modelId := Str.toLowerCase (id model) in
  let has := Str.includes modelId in
  let '(contextWindow, supportsImages, description) :=
    if has "claude" then
      if has "3-5-sonnet" then
        (200000, true, "Claude 3.5 Sonnet - Advanced reasoning and code generation")
      else if has "3-5-haiku" then
        (200000, true, "Claude 3.5 Haiku - Fast and efficient responses")
      else if has "claude-3" then
        (200000, true, "Claude 3 series - Advanced AI assistant")
      else (8192, false, id model)
    else if has "gpt-4" then
      (128000, has "vision" || has "4o",
       if has "4o" then "GPT-4o - Optimized for speed and cost"
       else "GPT-4 - Advanced language model")
    else if has "gpt-3.5" then
      (16385, false, "GPT-3.5 Turbo - Fast and capable")
    else if has "qwen" then
      (if has "72b" || has "110b" then 32768
       else if has "32b" then 32768
       else 32768,
       false,
       "Qwen " ++ (if has "coder" then "Coder" else "") ++ " - Alibaba's language model")
    else if has "abab" then
      (245760, false, "Minimax Abab - Chinese-optimized language model")
    else if has "gemini" then
      (if has "pro" then 2097152 else 1048576, true,
       "Google Gemini - Multimodal AI model")
    else if has "llama" then
      (if has "3.1" then 131072 else 8192, false,
       "Meta Llama - Open source language model")
    else if has "mistral" then
      (32768, false, "Mistral AI - European AI excellence")
    else if has "yi-" then
      (200000, false, "01.AI Yi - Bilingual AI model")
    else if has "deepseek" then
      (64000, false, "DeepSeek - Code and reasoning specialist")
    else (8192, false, id model) in
  {| Types.maxTokens := None;
     Types.contextWindow := contextWindow;
     Types.supportsImages := supportsImages;
     Types.supportsPromptCache := false;
     Types.inputPrice := parseApiPrice (pricing_prompt model);
     Types.outputPrice := parseApiPrice (pricing_completion model);
     Types.description := description |}.

(** One turn of [for (const model of parseResult.data.data)]. *)
Definition visit (models : gmap string Types.ModelInfo) (model : cometApiModel)
  : gmap string Types.ModelInfo :=
  if negb (isTextGenerationModel (id model)) then models
  else <[id model := synthesize model]> models.

Definition collect (descriptors : list cometApiModel) : gmap string Types.ModelInfo :=
  fold_left visit descriptors ∅.

(** [options?.cometApiBaseUrl || "https://api.cometapi.com/v1"] *)
Definition baseURL_of (options : option Types.ApiHandlerOptions) : string :=
  match options with
  | Some o =>
      match Types.cometApiBaseUrl o with
      | Some u => if String.eqb u "" then "https://api.cometapi.com/v1" else u
      | None => "https://api.cometapi.com/v1"
      end
  | None => "https://api.cometapi.com/v1"
  end.

(** [options?.cometApiKey] *)
Definition apiKey_of (options : option Types.ApiHandlerOptions) : option string :=
  match options with
  | Some o => Types.cometApiKey o
  | None => None
  end.

Definition modelsRequest (baseURL apiKey : string) : Request :=
  {| url := baseURL ++ "/models";
     method := "GET";
     headers := [ ("Authorization", "Bearer " ++ apiKey);
                  ("Content-Type", "application/json") ];
     timeout := 10000 |}.

(** The [try] block. *)
Definition tryBlock (baseURL apiKey : string) : JS.completion (gmap string Types.ModelInfo) :=
  bind (fetch (modelsRequest baseURL apiKey)) (fun response =>
  if negb (ok response) then
    Throw (newError ("HTTP error! status: " ++ tmpl (VNum (status response))))
  else
    bind (json response) (fun data =>
    match safeParse cometApiModelsResponseSchema data with
    | None => Normal cometApiModels
    | Some parseResult =>
        let models := collect (Fetcher.data parseResult) in
        let mergedModels := models ∪ cometApiModels in   (* later spread wins *)
        Normal mergedModels
    end)).

Definition getCometAPIModels (options : option Types.ApiHandlerOptions) : Resolution :=
  let baseURL := baseURL_of options in
  match apiKey_of options with
  | None => {| returned := Normal cometApiModels; requests := [] |}
  | Some apiKey =>
      if String.eqb apiKey "" then
        {| returned := Normal cometApiModels; requests := [] |}
      else
        {| returned := try_catch (tryBlock baseURL apiKey) (fun _ => Normal cometApiModels);
           requests := [modelsRequest baseURL apiKey] |}
  end.

End Resolver.

End Fetcher.

(* ===================================================================== *)
(** ** The completion handler ([providers/cometapi.ts])                   *)
(* ===================================================================== *)

Module Handler.

Import JS.

(** *** [CompletionUsage] *)

Record CompletionTokensDetails := { reasoning_tokens : option Z }.
Record PromptTokensDetails := { cached_tokens : option Z }.
Record CostDetails := { upstream_inference_cost : option float }.

Record CompletionUsage := {
  completion_tokens : option Z;
  completion_tokens_details : option CompletionTokensDetails;
  prompt_tokens : option Z;
  prompt_tokens_details : option PromptTokensDetails;
  total_tokens : option Z;
  cost : option float;
  is_byok : option bool;
  cost_details : option CostDetails;
}.

(** ToBoolean on a number: [0], [-0] and [NaN] are falsy. *)
Definition truthy_number (x : float) : bool :=
  negb (PrimFloat.is_zero x || PrimFloat.is_nan x).

(** [x || 0] on an optional binary64 number. *)
Definition or_zero (x : option float) : float :=
  match x with
  | Some f => if truthy_number f then f else 0%float
  | None => 0%float
  end.

(** [n || 0] on an optional integer. *)
Definition or_zeroZ (n : option Z) : Z :=
  match n with
  | Some k => if negb (k =? 0) then k else 0
  | None => 0
  end.

(** [getTotalCost] *)
Definition getTotalCost (lastUsage : CompletionUsage) : float :=
  (or_zero (match cost_details lastUsage with
            | Some d => upstream_inference_cost d
            | None => None
            end)
   + or_zero (cost lastUsage))%float.

(** *** [ApiStreamChunk]: what the generator yields *)

Inductive ApiStreamChunk :=
| Text (text : string)
| Usage (inputTokens outputTokens : Z)
        (cacheReadTokens reasoningTokens : option Z)
        (totalCost : float).

Definition usageChunk (lastUsage : CompletionUsage) : ApiStreamChunk :=
  Usage (or_zeroZ (prompt_tokens lastUsage))
        (or_zeroZ (completion_tokens lastUsage))
        (match prompt_tokens_details lastUsage with
         | Some d => cached_tokens d
         | None => None
         end)
        (match completion_tokens_details lastUsage with
         | Some d => reasoning_tokens d
         | None => None
         end)
        (getTotalCost lastUsage).

(** *** What the client delivers *)

(** [delta.content] is [string | null | undefined]; [None] is either of
    the last two. *)
Record Delta := { content : option string }.
Record ChunkChoice := { delta : option Delta }.

(** A streamed chunk.  [error] is [Some e] exactly when ["error" in chunk];
    [usage] is [None] for a missing or [null] usage. *)
Record ChatCompletionChunk := {
  error : option value;
  choices : list ChunkChoice;
  usage : option CompletionUsage;
}.

(** The async iterable: it delivers [chunks] in order and then either
    ends or throws [failure]. *)
Record Stream := {
  chunks : list ChatCompletionChunk;
  failure : option value;
}.

Record Message := { message_content : option string }.
Record Choice := { message : option Message }.

(** The body of a non-streaming answer. *)
Record ChatCompletion := {
  response_error : option value;
  response_choices : list Choice;
}.

(** [ChatCompletionCreateParams].  A field that is [None] is missing from
    the object or [undefined], and is not part of the serialized body. *)
Record ChatCompletionCreateParams := {
  model : string;
  max_tokens : option Z;
  temperature : option float;
  messages : list value;
  stream : bool;
  stream_options_include_usage : option bool;
}.

(** [getModelParams] answers at least these two. *)
Record ModelParams := {
  params_maxTokens : option Z;
  params_temperature : option float;
}.

(** What [getModel] answers. *)
Record Model := {
  id : string;
  info : option Types.ModelInfo;
  maxTokens : option Z;
  model_temperature : option float;
}.

(** A run of the generator: the requests handed to the client, the chunks
    yielded in order, and how the run ended. *)
Record Generated := {
  gen_calls : list ChatCompletionCreateParams;
  yielded : list ApiStreamChunk;
  finished : completion unit;
}.

(** A run of [completePrompt]. *)
Record Completed := {
  calls : list ChatCompletionCreateParams;
  result : completion string;
}.

Section Provider.

(** Imported: the static table and its default identifier, the price
    parser, the network, the message translator, the token-limit part of
    [getModelParams], [JSON.parse] ([None]: a SyntaxError), and the client
    ([chat.completions.create] answers a streaming request with a stream
    and a non-streaming one with a body, or rejects). *)
Variable cometApiModels : gmap string Types.ModelInfo.
Variable cometApiDefaultModelId : string.
Variable parseApiPrice : Fetcher.nullish string -> option float.
Variable fetch : Fetcher.Request -> completion Fetcher.Response.
Variable convertToOpenAiMessages : list value -> list value.
Variable deriveMaxTokens :
  string -> option Types.ModelInfo -> Types.ApiHandlerOptions -> option Z.
Variable JSON_parse : string -> option value.
Variable create_stream : ChatCompletionCreateParams -> completion Stream.
Variable create_completion : ChatCompletionCreateParams -> completion ChatCompletion.

(** The handler's [options]. *)
Variable options : Types.ApiHandlerOptions.

(** Modelled from the spec: [getModelParams] of [transform/model-params],
    which is not among the sources.  The specification says of it that
    the temperature is 0 unless the caller's configuration overrides it;
    the derived token limit is left to [deriveMaxTokens]. *)
Definition getModelParams (modelId : string) (model : option Types.ModelInfo)
    (settings : Types.ApiHandlerOptions) : ModelParams :=
  {| params_maxTokens := deriveMaxTokens modelId model settings;
     params_temperature :=
       Some (match Types.modelTemperature settings with
             | Some t => t
             | None => 0%float
             end) |}.

(** *** [makeCometAPIErrorReadable] *)

(** [details.map(f)]: a TypeError unless [details] is an array. *)
Fixpoint mapM_completion (f : value -> completion value) (items : list value)
  : completion (list value) :=
  match items with
  | [] => Normal []
  | x :: rest =>
      bind (f x) (fun y =>
      bind (mapM_completion f rest) (fun ys => Normal (y :: ys)))
  end.

Definition array_map (f : value -> completion value) (v : value)
  : completion (list value) :=
  match v with
  | VArr items => mapM_completion f items
  | VUndefined | VNull => Throw (TypeError "Cannot read properties of undefined")
  | _ => Throw (TypeError "map is not a function")
  end.

(** [JSON.parse(x)]: the argument is converted to a string first. *)
Definition JSON_parse_value (x : value) : completion value :=
  match JSON_parse (ToString x) with
  | Some v => Normal v
  | None => Throw (SyntaxError "Unexpected token")
  end.

(** The two declarations inside the [try]:
    [parsedJson] and [retryAfter]. *)
Definition retryAfter_of (error : value) : completion value :=
  bind (getProp error "error") (fun inner =>
  bind (getProp inner "metadata") (fun metadata =>
  bind (JSON_parse_value (optGet metadata "raw")) (fun parsedJson =>
  let parsedError := optGet parsedJson "error" in
  if is_nullish parsedError then Normal VUndefined   (* the chain short-circuits *)
  else
    bind (array_map (fun detail => getProp detail "retryDelay")
                    (get parsedError "details")) (fun delays =>
    Normal (match List.filter truthy delays with
            | r :: _ => r
            | [] => VUndefined
            end))))).

Definition makeCometAPIErrorReadable (error : value) : completion string :=
  if negb (strictEqNum (optGet error "code") 429)
     && negb (strictEqNum (optGet error "code") 418)
  then Normal ("CometAPI Error: " ++ tmpl (or (optGet error "message") error))
  else
    bind (try_catch
            (bind (retryAfter_of error) (fun retryAfter =>
             if truthy retryAfter
             then Normal (Some ("Rate limit exceeded, try again in "
                                ++ tmpl retryAfter ++ "."))
             else Normal None))
            (fun _ => Normal None))
         (fun returned =>
          match returned with
          | Some readable => Normal readable
          | None =>
              Normal ("Rate limit exceeded, try again later." ++ Str.LF
                      ++ tmpl (or (optGet error "message") error))
          end).

(** *** [getModel] and [fetchModel] *)

Definition getModel (models : gmap string Types.ModelInfo) : Model :=
  let id :=
    match Types.cometApiModelId options with
    | Some chosen => chosen
    | None => cometApiDefaultModelId
    end in
  let info :=
    match models !! id with
    | Some found => Some found
    | None => cometApiModels !! cometApiDefaultModelId
    end in
  let params := getModelParams id info options in
  {| id := id; info := info;
     maxTokens := params_maxTokens params;
     model_temperature := params_temperature params |}.

Definition fetchModel : completion Model :=
  bind (Fetcher.returned
          (Fetcher.getCometAPIModels cometApiModels parseApiPrice fetch (Some options)))
       (fun models => Normal (getModel models)).

(** *** [createMessage] *)

(** The error thrown for an in-band error object. *)
Definition inBandError (error : value) : value :=
  newError ("CometAPI Error " ++ tmpl (optGet error "code") ++ ": "
            ++ tmpl (optGet error "message")).

(** [chunk.choices[0]?.delta] followed by [delta?.content], kept when it is
    truthy. *)
Definition deltaText (chunk : ChatCompletionChunk) : option string :=
  match choices chunk with
  | [] => None
  | first :: _ =>
      match delta first with
      | None => None
      | Some d =>
          match content d with
          | Some text => if negb (String.eqb text "") then Some text else None
          | None => None
          end
      end
  end.

(** The [for await] loop: the chunks still to come, the failure the
    iterator ends with, and [lastUsage]; it answers the chunks yielded and
    either the final [lastUsage] or what was thrown. *)
Fixpoint consume (rest : list ChatCompletionChunk) (failure : option value)
    (lastUsage : option CompletionUsage)
  : list ApiStreamChunk * completion (option CompletionUsage) :=
  match rest with
  | [] =>
      match failure with
      | Some e => ([], Throw e)
      | None => ([], Normal lastUsage)
      end
  | chunk :: rest' =>
      match error chunk with
      | Some err => ([], Throw (inBandError err))
      | None =>
          let out :=
            match deltaText chunk with
            | Some text => [Text text]
            | None => []
            end in
          let lastUsage' :=
            match usage chunk with
            | Some u => Some u
            | None => lastUsage
            end in
          let '(later, ending) := consume rest' failure lastUsage' in
          ((out ++ later)%list, ending)
      end
  end.

Definition streamParams (m : Model) (systemPrompt : string) (messages : list value)
  : ChatCompletionCreateParams :=
  let openAiMessages :=
    (VObj ObjectClass [("role", VStr "system"); ("content", VStr systemPrompt)]
     :: convertToOpenAiMessages messages) in
  {| model := id m;
     max_tokens :=
       match maxTokens m with
       | Some n => if negb (n =? 0) && (n >? 0) then Some n else None
       | None => None
       end;
     temperature := model_temperature m;
     messages := openAiMessages;
     stream := true;
     stream_options_include_usage := Some true |}.

Definition createMessage (systemPrompt : string) (messages : list value) : Generated :=
  match fetchModel with
  | Throw e => {| gen_calls := []; yielded := []; finished := Throw e |}
  | Normal m =>
      let completionParams := streamParams m systemPrompt messages in
      match create_stream completionParams with
      | Throw e =>
          {| gen_calls := [completionParams]; yielded := []; finished := Throw e |}
      | Normal stream =>
          let '(texts, ending) := consume (chunks stream) (Handler.failure stream) None in
          match ending with
          | Throw e =>
              {| gen_calls := [completionParams];
                 yielded := texts;
                 finished :=
                   bind (makeCometAPIErrorReadable e) (fun errorMessage =>
                   Throw (newError errorMessage)) |}
          | Normal lastUsage =>
              {| gen_calls := [completionParams];
                 yielded :=
                   (texts ++ match lastUsage with
                             | Some u => [usageChunk u]
                             | None => []
                             end)%list;
                 finished := Normal tt |}
          end
      end
  end.

(** *** [completePrompt] *)

Definition promptParams (m : Model) (prompt : string) : ChatCompletionCreateParams :=
  {| model := id m;
     max_tokens := maxTokens m;
     temperature := model_temperature m;
     messages := [VObj ObjectClass [("role", VStr "user"); ("content", VStr prompt)]];
     stream := false;
     stream_options_include_usage := None |}.

(** [completion.choices[0]?.message?.content || ""] *)
Definition firstContent (response : ChatCompletion) : string :=
  match response_choices response with
  | [] => ""
  | first :: _ =>
      match message first with
      | None => ""
      | Some msg =>
          match message_content msg with
          | Some text => text
          | None => ""
          end
      end
  end.

Definition completePrompt (prompt : string) : Completed :=
  match fetchModel with
  | Throw e => {| calls := []; result := Throw e |}
  | Normal m =>
      let completionParams := promptParams m prompt in
      {| calls := [completionParams];
         result :=
           bind (create_completion completionParams) (fun response =>
           match response_error response with
           | Some err => Throw (inBandError err)
           | None => Normal (firstContent response)
           end) |}
  end.

End Provider.

End Handler.

(* ===================================================================== *)
(** ** The handler over answers as they arrive                            *)
(* ===================================================================== *)

(** The types of [Handler] are the client's declarations, in which
    [choices] is always an array.  Nothing checks the provider's answer
    against them, so [choices] can be missing when the handler reads its
    first element.  This module embeds the loop and the two entry points
    over such answers; [Handler] is its restriction to the answers that do
    have [choices]. *)
Module Wire.

Import JS.

(** A streamed chunk as it arrives.  [choices] is [None] when the field is
    missing or [null]. *)
Record Chunk := {
  error : option value;
  choices : option (list Handler.ChunkChoice);
  usage : option Handler.CompletionUsage;
}.

Record Stream := {
  chunks : list Chunk;
  failure : option value;
}.

(** The body of a non-streaming answer as it arrives. *)
Record Body := {
  response_error : option value;
  response_choices : option (list Handler.Choice);
}.

(** The chunk once [chunk.choices] is read for its first element: a
    TypeError when the field is missing. *)
Definition read_chunk (chunk : Chunk) : completion Handler.ChatCompletionChunk :=
  match choices chunk with
  | None => Throw (TypeError "Cannot read properties of undefined (reading '0')")
  | Some present =>
      Normal {| Handler.error := error chunk;
                Handler.choices := present;
                Handler.usage := usage chunk |}
  end.

(** [chunk.choices[0]?.delta] followed by [delta?.content], kept when it is
    truthy. *)
Definition deltaText (chunk : Chunk) : completion (option string) :=
  bind (read_chunk chunk) (fun typed => Normal (Handler.deltaText typed)).

(** The [for await] loop. *)
Fixpoint consume (rest : list Chunk) (failure : option value)
    (lastUsage : option Handler.CompletionUsage)
  : list Handler.ApiStreamChunk * completion (option Handler.CompletionUsage) :=
  match rest with
  | [] =>
      match failure with
      | Some e => ([], Throw e)
      | None => ([], Normal lastUsage)
      end
  | chunk :: rest' =>
      match error chunk with
      | Some err => ([], Throw (Handler.inBandError err))
      | None =>
          match deltaText chunk with
          | Throw e => ([], Throw e)
          | Normal text =>
              let out :=
                match text with
                | Some t => [Handler.Text t]
                | None => []
                end in
              let lastUsage' :=
                match usage chunk with
                | Some u => Some u
                | None => lastUsage
                end in
              let '(later, ending) := consume rest' failure lastUsage' in
              ((out ++ later)%list, ending)
          end
      end
  end.

(** The body once [completion.choices] is read for its first element. *)
Definition read_body (response : Body) : completion Handler.ChatCompletion :=
  match response_choices response with
  | None => Throw (TypeError "Cannot read properties of undefined (reading '0')")
  | Some present =>
      Normal {| Handler.response_error := response_error response;
                Handler.response_choices := present |}
  end.

(** [completion.choices[0]?.message?.content || ""] *)
Definition firstContent (response : Body) : completion string :=
  bind (read_body response) (fun typed => Normal (Handler.firstContent typed)).

Section Provider.

Variable cometApiModels : gmap string Types.ModelInfo.
Variable cometApiDefaultModelId : string.
Variable parseApiPrice : Fetcher.nullish string -> option float.
Variable fetch : Fetcher.Request -> completion Fetcher.Response.
Variable convertToOpenAiMessages : list value -> list value.
Variable deriveMaxTokens :
  string -> option Types.ModelInfo -> Types.ApiHandlerOptions -> option Z.
Variable JSON_parse : string -> option value.
Variable create_stream : Handler.ChatCompletionCreateParams -> completion Stream.
Variable create_completion : Handler.ChatCompletionCreateParams -> completion Body.
Variable options : Types.ApiHandlerOptions.

Definition createMessage (systemPrompt : string) (messages : list value)
  : Handler.Generated :=
  match Handler.fetchModel cometApiModels cometApiDefaultModelId parseApiPrice fetch
          deriveMaxTokens options with
  | Throw e =>
      {| Handler.gen_calls := []; Handler.yielded := []; Handler.finished := Throw e |}
  | Normal m =>
      let completionParams :=
        Handler.streamParams convertToOpenAiMessages m systemPrompt messages in
      match create_stream completionParams with
      | Throw e =>
          {| Handler.gen_calls := [completionParams];
             Handler.yielded := [];
             Handler.finished := Throw e |}
      | Normal stream =>
          let '(texts, ending) := consume (chunks stream) (failure stream) None in
          match ending with
          | Throw e =>
              {| Handler.gen_calls := [completionParams];
                 Handler.yielded := texts;
                 Handler.finished :=
                   bind (Handler.makeCometAPIErrorReadable JSON_parse e)
                        (fun errorMessage => Throw (newError errorMessage)) |}
          | Normal lastUsage =>
              {| Handler.gen_calls := [completionParams];
                 Handler.yielded :=
                   (texts ++ match lastUsage with
                             | Some u => [Handler.usageChunk u]
                             | None => []
                             end)%list;
                 Handler.finished := Normal tt |}
          end
      end
  end.

Definition completePrompt (prompt : string) : Handler.Completed :=
  match Handler.fetchModel cometApiModels cometApiDefaultModelId parseApiPrice fetch
          deriveMaxTokens options with
  | Throw e => {| Handler.calls := []; Handler.result := Throw e |}
  | Normal m =>
      let completionParams := Handler.promptParams m prompt in
      {| Handler.calls := [completionParams];
         Handler.result :=
           bind (create_completion completionParams) (fun response =>
           match response_error response with
           | Some err => Throw (Handler.inBandError err)
           | None => firstContent response
           end) |}
  end.

End Provider.

(** An answer that has the client's type, as it arrives. *)
Definition of_chunk (chunk : Handler.ChatCompletionChunk) : Chunk :=
  {| error := Handler.error chunk;
     choices := Some (Handler.choices chunk);
     usage := Handler.usage chunk |}.

Definition of_stream (stream : Handler.Stream) : Stream :=
  {| chunks := map of_chunk (Handler.chunks stream);
     failure := Handler.failure stream |}.

Definition of_body (response : Handler.ChatCompletion) : Body :=
  {| response_error := Handler.response_error response;
     response_choices := Some (Handler.response_choices response) |}.

End Wire.

(* ===================================================================== *)
(** ** The handler's constructor ([providers/cometapi.ts])                *)
(* ===================================================================== *)

Module Construction.

(** What the constructor hands to [new OpenAI(...)]. *)
Record ClientOptions := {
  baseURL : string;
  apiKey : string;
  defaultHeaders : list (string * string);
}.

Section Constructor.

(** Imported from [./constants]. *)
Variable DEFAULT_HEADERS : list (string * string).

Definition constructor (options : Types.ApiHandlerOptions) : ClientOptions :=
  let baseURL :=
    match Types.cometApiBaseUrl options with
    | Some u => if String.eqb u "" then "https://api.cometapi.com/v1" else u
    | None => "https://api.cometapi.com/v1"
    end in
  let apiKey :=
    match Types.cometApiKey options with
    | Some k => k
    | None => "not-provided"
    end in
  {| baseURL := baseURL; apiKey := apiKey; defaultHeaders := DEFAULT_HEADERS |}.

End Constructor.

End Construction.

(* ===================================================================== *)
(** ** The settings view ([settings/providers/CometAPI.tsx])              *)
(* ===================================================================== *)

Module Webview.

Section AvailableModels.

Variable cometApiModels : gmap string Types.ModelInfo.

(** The copy loop over [Object.entries(dynamicModels)]. *)
Definition copyEntries (entries : list (string * Types.ModelInfo))
  : gmap string Types.ModelInfo :=
  fold_left (fun modelRecord entry => <[fst entry := snd entry]> modelRecord) entries ∅.

(** [availableModels]; the argument is [routerModels.data?.cometapi]. *)
Definition availableModels (dynamicModels : option (gmap string Types.ModelInfo))
  : gmap string Types.ModelInfo :=
  match dynamicModels with
  | Some dynamic =>
      if Nat.ltb 0 (length (map_to_list dynamic))
      then copyEntries (map_to_list dynamic)
      else cometApiModels
  | None => cometApiModels
  end.

End AvailableModels.

End Webview.

(* ===================================================================== *)
(** ** Vocabulary of the specification                                    *)
(* ===================================================================== *)

Module Spec.

Import JS.

(** [t] occurs in [s]. *)
Definition contains (s t : string) : Prop :=
  exists before after, s = before ++ t ++ after.

(** An identifier the media-type filter is meant to drop: compared
    case-insensitively, it starts with a filtered prefix or contains a
    filtered substring. *)
Definition filtered (modelId : string) : Prop :=
  (exists prefix rest,
      In prefix Fetcher.prefixPatterns /\
      Str.toLowerCase modelId = prefix ++ rest) \/
  (exists pattern, In pattern Fetcher.imageGenPatterns /\
      contains (Str.toLowerCase modelId) pattern).

(** No API credential is supplied: the key is missing or empty. *)
Definition no_credential (options : option Types.ApiHandlerOptions) : Prop :=
  Fetcher.apiKey_of options = None \/ Fetcher.apiKey_of options = Some "".

(** The remote fetch fails (the transport rejects: network error, timeout;
    or the status is not 2xx; or the body is not JSON), or the decoded
    body fails schema validation. *)
Inductive degraded (answer : JS.completion Fetcher.Response) : Prop :=
| transport_rejects e :
    answer = Throw e -> degraded answer
| status_not_ok r :
    answer = Normal r -> Fetcher.ok r = false -> degraded answer
| body_unreadable r e :
    answer = Normal r -> Fetcher.ok r = true -> Fetcher.json r = Throw e ->
    degraded answer
| body_invalid r body :
    answer = Normal r -> Fetcher.ok r = true -> Fetcher.json r = Normal body ->
    Fetcher.cometApiModelsResponseSchema body = None ->
    degraded answer.

(** A malformed remote body: not an object, no [data] field, a [data]
    that is not an array, or a descriptor in [data] that is not an object
    with a string [id]. *)
Inductive malformed : value -> Prop :=
| not_an_object body :
    (forall c fields, body <> VObj c fields) -> malformed body
| data_missing c fields :
    lookup_field "data" fields = None -> malformed (VObj c fields)
| data_not_an_array c fields d :
    lookup_field "data" fields = Some d -> (forall items, d <> VArr items) ->
    malformed (VObj c fields)
| descriptor_without_id c fields items item :
    lookup_field "data" fields = Some (VArr items) -> In item items ->
    (forall s, get item "id" <> VStr s) ->
    malformed (VObj c fields).

(** The fetch succeeds and the body validates as [parsed]. *)
Definition validated (answer : JS.completion Fetcher.Response)
    (parsed : Fetcher.cometApiModelsResponse) : Prop :=
  exists r body,
    answer = Normal r /\ Fetcher.ok r = true /\ Fetcher.json r = Normal body /\
    Fetcher.cometApiModelsResponseSchema body = Some parsed.

(** The surviving remote descriptor for an identifier: the last listed
    descriptor with that identifier that passes the media-type filter. *)
Fixpoint remote_entry (descriptors : list Fetcher.cometApiModel) (k : string)
  : option Fetcher.cometApiModel :=
  match descriptors with
  | [] => None
  | d :: rest =>
      match remote_entry rest k with
      | Some later => Some later
      | None =>
          if Fetcher.isTextGenerationModel (Fetcher.id d) && String.eqb (Fetcher.id d) k
          then Some d
          else None
      end
  end.

(** *** Streaming *)

(** The chunks the loop gets through: those before the first in-band
    error object. *)
Fixpoint before_error (chunks : list Handler.ChatCompletionChunk)
  : list Handler.ChatCompletionChunk :=
  match chunks with
  | [] => []
  | chunk :: rest =>
      match Handler.error chunk with
      | Some _ => []
      | None => chunk :: before_error rest
      end
  end.

(** The first in-band error object of a chunk sequence. *)
Fixpoint first_error (chunks : list Handler.ChatCompletionChunk) : option value :=
  match chunks with
  | [] => None
  | chunk :: rest =>
      match Handler.error chunk with
      | Some err => Some err
      | None => first_error rest
      end
  end.

(** The non-empty text deltas of a chunk sequence, in arrival order. *)
Definition texts (chunks : list Handler.ChatCompletionChunk) : list string :=
  omap Handler.deltaText chunks.

(** The usage payload of the last chunk that carried one. *)
Fixpoint latest_usage (chunks : list Handler.ChatCompletionChunk)
  : option Handler.CompletionUsage :=
  match chunks with
  | [] => None
  | chunk :: rest =>
      match latest_usage rest with
      | Some u => Some u
      | None => Handler.usage chunk
      end
  end.

(** *** Cost *)

(** A field defaulting to 0 when absent. *)
Definition or_default (x : option float) : float :=
  match x with Some f => f | None => 0%float end.

(** [upstream_inference_cost (default 0) + cost (default 0)] *)
Definition stated_cost (u : Handler.CompletionUsage) : float :=
  (or_default (match Handler.cost_details u with
               | Some d => Handler.upstream_inference_cost d
               | None => None
               end)
   + or_default (Handler.cost u))%float.

(** Equality of numbers: [===], or both [NaN]. *)
Definition same_number (x y : float) : bool :=
  PrimFloat.eqb x y || (PrimFloat.is_nan x && PrimFloat.is_nan y).

(** A field decoded from JSON is never [NaN]. *)
Definition decoded (x : option float) : Prop :=
  match x with Some f => PrimFloat.is_nan f = false | None => True end.

Definition decoded_usage (u : Handler.CompletionUsage) : Prop :=
  decoded (Handler.cost u) /\
  decoded (match Handler.cost_details u with
           | Some d => Handler.upstream_inference_cost d
           | None => None
           end).

(** A field that is moreover not the negative zero. *)
Definition unsigned_zero (x : option float) : Prop :=
  match x with Some f => f <> PrimFloat.neg_zero | None => True end.

Definition unsigned_zero_usage (u : Handler.CompletionUsage) : Prop :=
  unsigned_zero (Handler.cost u) /\
  unsigned_zero (match Handler.cost_details u with
                 | Some d => Handler.upstream_inference_cost d
                 | None => None
                 end).

(** [same_number] on the specification side of binary64. *)
Definition sf_same (x y : spec_float) : bool :=
  SFeqb x y || (negb (SFeqb x x) && negb (SFeqb y y)).

(** Two numbers that are the same, or both a zero of either sign. *)
Definition zero_alike (x y : float) : Prop :=
  x = y \/ (PrimFloat.is_zero x = true /\ PrimFloat.is_zero y = true).

(** *** The readable-message transform *)

(** The carried status code is 429 or 418. *)
Definition rate_limited (error : value) : Prop :=
  optGet error "code" = VNum 429 \/ optGet error "code" = VNum 418.

(** The original message: [error?.message || error], as text. *)
Definition original_message (error : value) : string :=
  ToString (or (optGet error "message") error).

Definition defined (v : value) : Prop := v <> VUndefined /\ v <> VNull.

(** [d] is the first truthy element of [vs]. *)
Definition first_truthy (vs : list value) (d : value) : Prop :=
  exists before after,
    vs = (before ++ d :: after)%list /\
    Forall (fun v => truthy v = false) before /\ truthy d = true.

(** A retry delay is found in the nested raw payload: [error.error.metadata.raw]
    parses as JSON, its [error.details] is an array of readable entries,
    and [delay] is the first non-empty [retryDelay] among them. *)
Definition retry_delay_found (JSON_parse : string -> option value)
    (error : value) (delay : value) : Prop :=
  exists parsed details,
    defined (get error "error") /\
    JSON_parse (ToString (optGet (get (get error "error") "metadata") "raw"))
      = Some parsed /\
    defined (optGet parsed "error") /\
    get (optGet parsed "error") "details" = VArr details /\
    Forall defined details /\
    first_truthy (map (fun detail => get detail "retryDelay") details) delay.

(** *** The descriptor schema *)

(** The fields [cometApiModelSchema] validates with [.optional()]. *)
Definition optional_fields : list string :=
  [ "object"; "created"; "owned_by"; "name"; "description"; "context_length";
    "max_tokens"; "architecture"; "pricing" ].

(** All the fields [cometApiModelSchema] names. *)
Definition descriptor_fields : list string := "id" :: optional_fields.

(** *** The heuristics *)

(** The substrings by which the loop recognises a model family. *)
Definition family_markers : list string :=
  [ "claude"; "gpt-4"; "gpt-3.5"; "qwen"; "abab"; "gemini"; "llama"; "mistral";
    "yi-"; "deepseek" ].

(** The substrings by which it recognises a Claude version. *)
Definition claude_versions : list string :=
  [ "3-5-sonnet"; "3-5-haiku"; "claude-3" ].

(** *** Chunks as they arrive *)

(** The chunk carries the non-empty text delta [text]: its first choice
    has a delta, the content of that delta is [text], and [text] is not
    the empty string. *)
Inductive carries (chunk : Wire.Chunk) (text : string) : Prop :=
| carries_first_choice first others d :
    Wire.choices chunk = Some (first :: others) ->
    Handler.delta first = Some d ->
    Handler.content d = Some text ->
    text <> "" ->
    carries chunk text.

(** [texts] lists the non-empty text deltas of [chunks]: one entry per
    chunk that carries one, in arrival order. *)
Inductive text_deltas : list Wire.Chunk -> list string -> Prop :=
| deltas_end : text_deltas [] []
| deltas_text chunk text chunks texts :
    carries chunk text -> text_deltas chunks texts ->
    text_deltas (chunk :: chunks) (text :: texts)
| deltas_silent chunk chunks texts :
    (forall text, ~ carries chunk text) -> text_deltas chunks texts ->
    text_deltas (chunk :: chunks) texts.

(** The loop does not get past a chunk that has an [error] field, or
    whose [choices] is missing. *)
Definition stops (chunk : Wire.Chunk) : bool :=
  match Wire.error chunk, Wire.choices chunk with
  | None, Some _ => false
  | _, _ => true
  end.

(** The chunks the loop gets through: those before the first at which it
    stops. *)
Fixpoint reached (chunks : list Wire.Chunk) : list Wire.Chunk :=
  match chunks with
  | [] => []
  | chunk :: rest => if stops chunk then [] else chunk :: reached rest
  end.

(** *** The cost a [Usage] event reports *)

(** A cost field that counts: present and not [NaN]. *)
Definition counted (x : option float) : option float :=
  match x with
  | Some f => if PrimFloat.is_nan f then None else Some f
  | None => None
  end.

(** [upstream_inference_cost] (0 when absent or [NaN]) plus [cost] (0 when
    absent or [NaN]). *)
Definition counted_cost (u : Handler.CompletionUsage) : float :=
  (or_default (counted (match Handler.cost_details u with
                        | Some d => Handler.upstream_inference_cost d
                        | None => None
                        end))
   + or_default (counted (Handler.cost u)))%float.

(** *** The media-type filter, written out *)

(** The prefixes that mark speech, Midjourney, video and audio models. *)
Definition media_prefixes : list string :=
  [ "tts"; "mj_"; "veo"; "runway"; "suno"; "kling_" ].

(** The substrings that mark image generators. *)
Definition image_markers : list string :=
  [ "dall-e"; "dalle"; "midjourney"; "stable-diffusion"; "sd-"; "flux-";
    "playground-v"; "ideogram"; "recraft"; "black-forest-labs" ].

(** The identifier, lower-cased, starts with one of those prefixes or
    contains one of those substrings. *)
Definition names_media (modelId : string) : Prop :=
  (exists prefix rest,
      In prefix media_prefixes /\ Str.toLowerCase modelId = prefix ++ rest) \/
  (exists marker, In marker image_markers /\
      contains (Str.toLowerCase modelId) marker).

End Spec.

(* ===================================================================== *)
(** ** Concrete inputs                                                    *)
(* ===================================================================== *)

Module Examples.

Import JS.

Definition noPrices : Fetcher.nullish string -> option float := fun _ => None.

Definition keyed : Types.ApiHandlerOptions :=
  {| Types.cometApiKey := Some "test-key";
     Types.cometApiBaseUrl := None;
     Types.cometApiModelId := None;
     Types.modelTemperature := None |}.

Definition unkeyed : Types.ApiHandlerOptions :=
  {| Types.cometApiKey := None;
     Types.cometApiBaseUrl := None;
     Types.cometApiModelId := None;
     Types.modelTemperature := None |}.

Definition descriptor (modelId : string) : value :=
  VObj ObjectClass [("id", VStr modelId); ("object", VStr "model")].

(** A remote listing: one identifier the Claude table has too, one image
    generator, one further text model. *)
Definition listing : value :=
  VObj ObjectClass
    [("data", VArr [descriptor "claude-3-5-sonnet-20241022";
                    descriptor "dall-e-3";
                    descriptor "gpt-4o"]);
     ("success", VBool true)].

Definition parsedDescriptor (modelId : string) : Fetcher.cometApiModel :=
  {| Fetcher.id := modelId; Fetcher.object := Some "model";
     Fetcher.created := None; Fetcher.owned_by := None; Fetcher.name := None;
     Fetcher.description := None; Fetcher.context_length := None;
     Fetcher.max_tokens := None; Fetcher.architecture := None;
     Fetcher.pricing := None |}.

Definition parsedListing : Fetcher.cometApiModelsResponse :=
  {| Fetcher.data := [parsedDescriptor "claude-3-5-sonnet-20241022";
                      parsedDescriptor "dall-e-3";
                      parsedDescriptor "gpt-4o"];
     Fetcher.success := Some true |}.

Definition answering (body : value) : Fetcher.Request -> completion Fetcher.Response :=
  fun _ => Normal {| Fetcher.ok := true; Fetcher.status := 200;
                     Fetcher.json := Normal body |}.

(** A body without [data]. *)
Definition bodyWithoutData : value := VObj ObjectClass [("success", VBool true)].

Definition offline : Fetcher.Request -> completion Fetcher.Response :=
  fun _ => Throw (newError "fetch failed").

Definition noUsage : Handler.CompletionUsage :=
  {| Handler.completion_tokens := None;
     Handler.completion_tokens_details := None;
     Handler.prompt_tokens := None;
     Handler.prompt_tokens_details := None;
     Handler.total_tokens := None;
     Handler.cost := None;
     Handler.is_byok := None;
     Handler.cost_details := None |}.

(** [{prompt_tokens: 10, completion_tokens: 20}] *)
Definition usage_10_20 : Handler.CompletionUsage :=
  {| Handler.completion_tokens := Some 20;
     Handler.completion_tokens_details := None;
     Handler.prompt_tokens := Some 10;
     Handler.prompt_tokens_details := None;
     Handler.total_tokens := None;
     Handler.cost := None;
     Handler.is_byok := None;
     Handler.cost_details := None |}.

(** [{cost: 0.5, cost_details: {upstream_inference_cost: 0.2}}] *)
Definition usage_with_cost : Handler.CompletionUsage :=
  {| Handler.completion_tokens := None;
     Handler.completion_tokens_details := None;
     Handler.prompt_tokens := None;
     Handler.prompt_tokens_details := None;
     Handler.total_tokens := None;
     Handler.cost := Some 0.5%float;
     Handler.is_byok := None;
     Handler.cost_details :=
       Some {| Handler.upstream_inference_cost := Some 0.2%float |} |}.

(** [{choices: [{delta: {content: text}}], usage}] *)
Definition textChunk (text : string) (u : option Handler.CompletionUsage)
  : Handler.ChatCompletionChunk :=
  {| Handler.error := None;
     Handler.choices :=
       [{| Handler.delta := Some {| Handler.content := Some text |} |}];
     Handler.usage := u |}.

(** The chunk sequence [A], then [B] with usage. *)
Definition streamAB : Handler.Stream :=
  {| Handler.chunks := [textChunk "A" None; textChunk "B" (Some usage_10_20)];
     Handler.failure := None |}.

(** [{error: {message: "API Error", code: 500}}] *)
Definition apiError500 : value :=
  VObj ObjectClass [("message", VStr "API Error"); ("code", VNum 500)].


Definition errorBody (err : value) : Handler.ChatCompletion :=
  {| Handler.response_error := Some err; Handler.response_choices := [] |}.

(** A rate-limit error whose raw payload names a retry delay, and a
    decoder that knows that one payload. *)
Definition rawPayload : string := "payload-with-retry-delay".



Definition rateLimit (raw : value) : value :=
  VObj (ErrorClass "Error")
    [("message", VStr "Too Many Requests"); ("code", VNum 429);
     ("error", VObj ObjectClass [("metadata", VObj ObjectClass [("raw", raw)])])].

(** Collaborators that stay out of the way. *)
Definition untranslated : list value -> list value := fun messages => messages.

Definition noLimit : string -> option Types.ModelInfo -> Types.ApiHandlerOptions -> option Z :=
  fun _ _ _ => None.

Definition noJSON : string -> option value := fun _ => None.

(** The stream of the handler's own test: a text chunk, then an empty
    delta with usage. *)
Definition testStream : Handler.Stream :=
  {| Handler.chunks :=
       [textChunk "test response" None;
        {| Handler.error := None;
           Handler.choices := [{| Handler.delta := Some {| Handler.content := None |} |}];
           Handler.usage := Some usage_10_20 |}];
     Handler.failure := None |}.


(** Options naming a model no catalog knows. *)
Definition unknownModel : Types.ApiHandlerOptions :=
  {| Types.cometApiKey := Some "test-key";
     Types.cometApiBaseUrl := None;
     Types.cometApiModelId := Some "nonexistent/model";
     Types.modelTemperature := None |}.

(** A listing whose second descriptor has [name: null]. *)
Definition nullNameDescriptor : value :=
  VObj ObjectClass [("id", VStr "o1"); ("name", VNull)].

Definition listingWithNull : value :=
  VObj ObjectClass [("data", VArr [descriptor "gpt-4o"; nullNameDescriptor])].

(** A listing of media generators only. *)
Definition mediaListing : value :=
  VObj ObjectClass [("data", VArr [descriptor "dall-e-3"; descriptor "tts-1"])].

Definition parsedMediaListing : Fetcher.cometApiModelsResponse :=
  {| Fetcher.data := [parsedDescriptor "dall-e-3"; parsedDescriptor "tts-1"];
     Fetcher.success := None |}.

(** Text and usage arrive, then the transport fails. *)
Definition interruptedStream : Handler.Stream :=
  {| Handler.chunks := [textChunk "partial" (Some usage_10_20)];
     Handler.failure := Some (newError "socket hang up") |}.

(** Two chunks carry usage. *)
Definition twoUsages : Handler.Stream :=
  {| Handler.chunks := [textChunk "A" (Some usage_10_20);
                        textChunk "B" (Some usage_with_cost)];
     Handler.failure := None |}.

(** A chunk with text and [error: null]. *)
Definition nullErrorChunk : Handler.ChatCompletionChunk :=
  {| Handler.error := Some VNull;
     Handler.choices :=
       [{| Handler.delta := Some {| Handler.content := Some "ignored" |} |}];
     Handler.usage := None |}.

(** A body without choices. *)
Definition emptyBody : Handler.ChatCompletion :=
  {| Handler.response_error := None; Handler.response_choices := [] |}.

(** A payload whose first detail is [null]. *)
Definition payloadWithNullDetail : value :=
  VObj ObjectClass
    [("error",
      VObj ObjectClass
        [("details", VArr [VNull; VObj ObjectClass [("retryDelay", VStr "30s")]])])].

Definition decodeNullDetail : string -> option value :=
  fun text => if String.eqb text rawPayload then Some payloadWithNullDetail else None.

(** A chunk without [choices]: [{usage: ...}] alone. *)
Definition chunkWithoutChoices (u : option Handler.CompletionUsage) : Wire.Chunk :=
  {| Wire.error := None; Wire.choices := None; Wire.usage := u |}.

(** Text arrives, then a chunk without [choices], then more text. *)
Definition brokenStream : Wire.Stream :=
  {| Wire.chunks := [Wire.of_chunk (textChunk "partial" (Some usage_10_20));
                     chunkWithoutChoices None;
                     Wire.of_chunk (textChunk "late" None)];
     Wire.failure := None |}.

(** An empty delta with usage between two text chunks. *)
Definition emptyDeltaStream : Wire.Stream :=
  {| Wire.chunks :=
       [Wire.of_chunk (textChunk "A" None);
        Wire.of_chunk (textChunk "" (Some usage_with_cost));
        Wire.of_chunk (textChunk "B" None)];
     Wire.failure := None |}.

(** A body without [choices], and one whose [choices] is empty. *)
Definition bodyWithoutChoices : Wire.Body :=
  {| Wire.response_error := None; Wire.response_choices := None |}.

Definition bodyWithNoChoice : Wire.Body :=
  {| Wire.response_error := None; Wire.response_choices := Some [] |}.

(** [{cost: NaN}] *)
Definition usage_nan_cost : Handler.CompletionUsage :=
  {| Handler.completion_tokens := None;
     Handler.completion_tokens_details := None;
     Handler.prompt_tokens := None;
     Handler.prompt_tokens_details := None;
     Handler.total_tokens := None;
     Handler.cost := Some PrimFloat.nan;
     Handler.is_byok := None;
     Handler.cost_details := None |}.

(** A stream whose only chunk carries that usage. *)
Definition nanCostStream : Wire.Stream :=
  {| Wire.chunks :=
       [{| Wire.error := None; Wire.choices := Some []; Wire.usage := Some usage_nan_cost |}];
     Wire.failure := None |}.

(** A listing that names [gpt-4o] twice, with different prices, and a
    further model after it; and a price parser that tells the two apart. *)
Definition pricedDescriptor (modelId price : string) : value :=
  VObj ObjectClass
    [("id", VStr modelId);
     ("pricing", VObj ObjectClass [("prompt", VStr price); ("completion", VStr price)])].

Definition repeatedListing : value :=
  VObj ObjectClass
    [("data", VArr [pricedDescriptor "gpt-4o" "0.000001";
                    pricedDescriptor "gpt-4o" "0.000002";
                    descriptor "o1"])].

Definition parsedPriced (modelId price : string) : Fetcher.cometApiModel :=
  {| Fetcher.id := modelId; Fetcher.object := None;
     Fetcher.created := None; Fetcher.owned_by := None; Fetcher.name := None;
     Fetcher.description := None; Fetcher.context_length := None;
     Fetcher.max_tokens := None; Fetcher.architecture := None;
     Fetcher.pricing :=
       Some {| Fetcher.prompt := Fetcher.Present price;
               Fetcher.completion := Fetcher.Present price |} |}.

Definition parsedRepeatedListing : Fetcher.cometApiModelsResponse :=
  {| Fetcher.data := [parsedPriced "gpt-4o" "0.000001";
                      parsedPriced "gpt-4o" "0.000002";
                      parsedDescriptor "o1"];
     Fetcher.success := None |}.

Definition listedPrices : Fetcher.nullish string -> option float :=
  fun price =>
    match price with
    | Fetcher.Present text =>
        if String.eqb text "0.000001" then Some 1%float
        else if String.eqb text "0.000002" then Some 2%float
        else None
    | _ => None
    end.

End Examples.

(* ===================================================================== *)
(** ** Facts about the string methods                                     *)
(* ===================================================================== *)

Module StrFacts.

Lemma startsWith_iff (s p : string) :
  Str.startsWith s p = true <-> exists rest, s = p ++ rest.
Proof.
  revert s. induction p as [|a p IH]; intros s; simpl.
  - split; [intros _; now exists s | intros _; now destruct s].
  - destruct s as [|b s]; simpl.
    + split; [discriminate | intros [rest H]; discriminate].
    + rewrite andb_true_iff, Ascii.eqb_eq, IH. split.
      * intros [-> [rest ->]]. now exists rest.
      * intros [rest H]. injection H as -> ->. split; [reflexivity | now exists rest].
Qed.

Lemma includes_iff (s p : string) :
  Str.includes s p = true <-> Spec.contains s p.
Proof.
  unfold Spec.contains. induction s as [|c s IH].
  - cbn [Str.includes]. rewrite orb_false_r, startsWith_iff. split.
    + intros [rest H]. now exists "", rest.
    + intros [before [after H]]. destruct before; [|discriminate]. now exists after.
  - cbn [Str.includes]. rewrite orb_true_iff, startsWith_iff, IH. split.
    + intros [[rest H] | [before [after H]]].
      * now exists "", rest.
      * exists (String c before), after. simpl. now rewrite H.
    + intros [before [after H]]. destruct before as [|c' before].
      * left. now exists after.
      * right. simpl in H. injection H as _ H. now exists before, after.
Qed.







End StrFacts.

(* ===================================================================== *)
(** ** The catalog resolver: properties                                   *)
(* ===================================================================== *)

Module FetcherFacts.

Import JS.

Lemma filtered_not_text (modelId : string) :
  Spec.filtered modelId -> Fetcher.isTextGenerationModel modelId = false.
Proof.
  unfold Fetcher.isTextGenerationModel, Str.some.
  intros [(prefix & rest & Hin & Heq) | (pattern & Hin & Hsub)].
  - assert (H : existsb (fun p => Str.startsWith (Str.toLowerCase modelId) p)
                        Fetcher.prefixPatterns = true).
    { apply existsb_exists. exists prefix. split; [exact Hin|].
      apply StrFacts.startsWith_iff. now exists rest. }
    now rewrite H.
  - assert (H : existsb (fun p => Str.includes (Str.toLowerCase modelId) p)
                        Fetcher.imageGenPatterns = true).
    { apply existsb_exists. exists pattern. split; [exact Hin|].
      now apply StrFacts.includes_iff. }
    rewrite H. apply andb_false_r.
Qed.

Lemma remote_entry_sound descriptors k d :
  Spec.remote_entry descriptors k = Some d ->
  In d descriptors /\ Fetcher.id d = k /\
  Fetcher.isTextGenerationModel (Fetcher.id d) = true.
Proof.
  induction descriptors as [|d0 rest IH]; simpl; [discriminate|].
  destruct (Spec.remote_entry rest k) as [later|].
  - intros [= ->]. destruct IH as (? & ? & ?); auto.
  - destruct (Fetcher.isTextGenerationModel (Fetcher.id d0)) eqn:Ht; simpl; [|discriminate].
    destruct (String.eqb_spec (Fetcher.id d0) k); [|discriminate].
    intros [= ->]. auto.
Qed.

Lemma remote_entry_filtered descriptors modelId :
  Spec.filtered modelId -> Spec.remote_entry descriptors modelId = None.
Proof.
  intros Hf. destruct (Spec.remote_entry descriptors modelId) as [d|] eqn:E; [|reflexivity].
  apply remote_entry_sound in E as (_ & Hid & Ht).
  rewrite Hid, (filtered_not_text _ Hf) in Ht. discriminate.
Qed.

Section Resolver.

Variable cometApiModels : gmap string Types.ModelInfo.
Variable parseApiPrice : Fetcher.nullish string -> option float.
Variable fetch : Fetcher.Request -> JS.completion Fetcher.Response.

Abbreviation synthesize := (Fetcher.synthesize parseApiPrice).
Abbreviation getCometAPIModels := (Fetcher.getCometAPIModels cometApiModels parseApiPrice fetch).
Abbreviation tryBlock := (Fetcher.tryBlock cometApiModels parseApiPrice fetch).

(** What the loop leaves under each key. *)
Lemma fold_visit_lookup descriptors (models : gmap string Types.ModelInfo) k :
  fold_left (Fetcher.visit parseApiPrice) descriptors models !! k =
  match Spec.remote_entry descriptors k with
  | Some d => Some (synthesize d)
  | None => models !! k
  end.
Proof.
  revert models. induction descriptors as [|d rest IH]; intros models; simpl; [reflexivity|].
  rewrite IH. destruct (Spec.remote_entry rest k); [reflexivity|].
  unfold Fetcher.visit.
  destruct (Fetcher.isTextGenerationModel (Fetcher.id d)); simpl; [|reflexivity].
  destruct (String.eqb_spec (Fetcher.id d) k) as [->|Hne].
  - apply lookup_insert_eq.
  - now apply lookup_insert_ne.
Qed.

Lemma collect_lookup descriptors k :
  Fetcher.collect parseApiPrice descriptors !! k =
  option_map synthesize (Spec.remote_entry descriptors k).
Proof.
  unfold Fetcher.collect. rewrite fold_visit_lookup.
  destruct (Spec.remote_entry descriptors k); [reflexivity | apply lookup_empty].
Qed.

(** The [try] block, by cases on what the network answers. *)
Lemma tryBlock_degraded baseURL apiKey :
  Spec.degraded (fetch (Fetcher.modelsRequest baseURL apiKey)) ->
  try_catch (tryBlock baseURL apiKey) (fun _ => Normal cometApiModels)
  = Normal cometApiModels.
Proof.
  unfold Fetcher.tryBlock.
  intros [e H | r H Hok | r e H Hok Hj | r body H Hok Hj Hs]; rewrite H; simpl.
  - reflexivity.
  - now rewrite Hok.
  - now rewrite Hok, Hj.
  - rewrite Hok, Hj. simpl. unfold Fetcher.safeParse. now rewrite Hs.
Qed.

Lemma tryBlock_validated baseURL apiKey parsed :
  Spec.validated (fetch (Fetcher.modelsRequest baseURL apiKey)) parsed ->
  tryBlock baseURL apiKey
  = Normal (Fetcher.collect parseApiPrice (Fetcher.data parsed) ∪ cometApiModels).
Proof.
  intros (r & body & H & Hok & Hj & Hs).
  unfold Fetcher.tryBlock. rewrite H. simpl. rewrite Hok, Hj. simpl.
  unfold Fetcher.safeParse. now rewrite Hs.
Qed.

(** Every answer of the network is a failure or validates. *)
Lemma degraded_or_validated (answer : JS.completion Fetcher.Response) :
  Spec.degraded answer \/ exists parsed, Spec.validated answer parsed.
Proof.
  destruct answer as [r|e]; [|left; exact (Spec.transport_rejects _ e eq_refl)].
  destruct (Fetcher.ok r) eqn:Hok; [|left; exact (Spec.status_not_ok _ r eq_refl Hok)].
  destruct (Fetcher.json r) as [body|e] eqn:Hj;
    [|left; exact (Spec.body_unreadable _ r e eq_refl Hok Hj)].
  destruct (Fetcher.cometApiModelsResponseSchema body) as [parsed|] eqn:Hs.
  - right. exists parsed, r, body. auto.
  - left. exact (Spec.body_invalid _ r body eq_refl Hok Hj Hs).
Qed.

Lemma resolver_with_key options apiKey :
  Fetcher.apiKey_of options = Some apiKey -> apiKey <> "" ->
  getCometAPIModels options =
  {| Fetcher.returned :=
       try_catch (tryBlock (Fetcher.baseURL_of options) apiKey)
                 (fun _ => Normal cometApiModels);
     Fetcher.requests := [Fetcher.modelsRequest (Fetcher.baseURL_of options) apiKey] |}.
Proof.
  intros Hk Hne. unfold Fetcher.getCometAPIModels. rewrite Hk.
  destruct (String.eqb_spec apiKey ""); [contradiction | reflexivity].
Qed.

Lemma resolver_without_key options :
  Spec.no_credential options ->
  getCometAPIModels options =
  {| Fetcher.returned := Normal cometApiModels; Fetcher.requests := [] |}.
Proof.
  intros [H | H]; unfold Fetcher.getCometAPIModels; rewrite H; reflexivity.
Qed.

Lemma credential_cases options :
  Spec.no_credential options \/
  exists apiKey, Fetcher.apiKey_of options = Some apiKey /\ apiKey <> "".
Proof.
  unfold Spec.no_credential.
  destruct (Fetcher.apiKey_of options) as [k|]; [|left; now left].
  destruct (String.eqb_spec k "") as [->|Hne]; [left; now right|].
  right. now exists k.
Qed.

(** The resolver always returns, and what it returns is the static table
    or the remote entries laid over it. *)
Lemma resolver_returns options :
  exists models,
    Fetcher.returned (getCometAPIModels options) = Normal models /\
    (models = cometApiModels \/
     exists descriptors,
       models = Fetcher.collect parseApiPrice descriptors ∪ cometApiModels).
Proof.
  destruct (credential_cases options) as [Hno | (apiKey & Hk & Hne)].
  - rewrite (resolver_without_key _ Hno). simpl. eauto.
  - rewrite (resolver_with_key _ _ Hk Hne). simpl.
    destruct (degraded_or_validated
                (fetch (Fetcher.modelsRequest (Fetcher.baseURL_of options) apiKey)))
      as [Hd | (parsed & Hv)].
    + rewrite (tryBlock_degraded _ _ Hd). eauto.
    + rewrite (tryBlock_validated _ _ _ Hv). simpl. eauto.
Qed.

Lemma malformed_invalid (body : value) :
  Spec.malformed body -> Fetcher.cometApiModelsResponseSchema body = None.
Proof.
  intros [b Hno | c fields Hd | c fields d Hd Hna | c fields items item Hd Hin Hid].
  - destruct b; try reflexivity. now destruct (Hno c fields).
  - unfold Fetcher.cometApiModelsResponseSchema, Fetcher.z_object. simpl. rewrite Hd.
    now destruct c.
  - unfold Fetcher.cometApiModelsResponseSchema, Fetcher.z_object. simpl. rewrite Hd.
    destruct d; try reflexivity. now destruct (Hna items).
  - unfold Fetcher.cometApiModelsResponseSchema, Fetcher.z_object. simpl. rewrite Hd.
    simpl. rewrite mapM_None_2; [reflexivity|].
    apply Exists_exists. exists item. split; [now apply list_elem_of_In|].
    unfold Fetcher.cometApiModelSchema, Fetcher.z_object.
    destruct item; try reflexivity.
    destruct (get (VObj c0 fields0) "id") as [| | | |s| |] eqn:E; try reflexivity.
    now destruct (Hid s).
Qed.

(** C3. The catalog resolver never raises to its caller, and whenever the
    remote fetch fails (the transport rejects, the status is not 2xx, the
    body cannot be read) or the body fails schema validation (in
    particular a body without [data] or with fields of the wrong type),
    what it returns is exactly the static table. *)
Theorem resolver_never_raises_and_degrades (options : option Types.ApiHandlerOptions) :
  (exists models, Fetcher.returned (getCometAPIModels options) = Normal models) /\
  (forall apiKey,
      Fetcher.apiKey_of options = Some apiKey ->
      let answer := fetch (Fetcher.modelsRequest (Fetcher.baseURL_of options) apiKey) in
      Spec.degraded answer \/
      (exists r body, answer = Normal r /\ Fetcher.json r = Normal body /\
                      Spec.malformed body) ->
      Fetcher.returned (getCometAPIModels options) = Normal cometApiModels).
Proof.
  split.
  - destruct (resolver_returns options) as (models & H & _). eauto.
  - intros apiKey Hk answer Hfail.
    destruct (String.eqb_spec apiKey "") as [->|Hne].
    + rewrite resolver_without_key; [reflexivity | now right].
    + rewrite (resolver_with_key _ _ Hk Hne). simpl.
      apply tryBlock_degraded. fold answer.
      destruct Hfail as [Hd | (r & body & Ha & Hj & Hm)]; [exact Hd|].
      destruct (Fetcher.ok r) eqn:Hok.
      * exact (Spec.body_invalid _ r body Ha Hok Hj (malformed_invalid _ Hm)).
      * exact (Spec.status_not_ok _ r Ha Hok).
Qed.

(** C4. Merge precedence.  When the remote catalog was fetched and
    validated, the returned mapping contains every key of the static
    table, and under every identifier that has a surviving remote
    descriptor (so in particular under those the static table has too) it
    holds the entry synthesized from that descriptor.  When the fetch
    fails, the static table is returned unchanged. *)
Theorem merge_precedence (options : option Types.ApiHandlerOptions) (apiKey : string) :
  Fetcher.apiKey_of options = Some apiKey -> apiKey <> "" ->
  let answer := fetch (Fetcher.modelsRequest (Fetcher.baseURL_of options) apiKey) in
  (forall parsed, Spec.validated answer parsed ->
     exists merged,
       Fetcher.returned (getCometAPIModels options) = Normal merged /\
       (forall k, is_Some (cometApiModels !! k) -> is_Some (merged !! k)) /\
       (forall k d, Spec.remote_entry (Fetcher.data parsed) k = Some d ->
                    merged !! k = Some (synthesize d))) /\
  (Spec.degraded answer ->
     Fetcher.returned (getCometAPIModels options) = Normal cometApiModels).
Proof.
  intros Hk Hne answer. rewrite (resolver_with_key _ _ Hk Hne). simpl. split.
  - intros parsed Hv. rewrite (tryBlock_validated _ _ _ Hv). simpl.
    eexists. split; [reflexivity|]. split.
    + intros k [v Hv']. rewrite lookup_union.
      rewrite Hv'. destruct (Fetcher.collect _ _ !! k); simpl; eauto.
    + intros k d Hd. apply lookup_union_Some_l.
      now rewrite collect_lookup, Hd.
  - apply tryBlock_degraded.
Qed.

(** C6. Without an API credential the resolver returns exactly the static
    table, normally, and issues no request. *)
Theorem no_credential_static (options : option Types.ApiHandlerOptions) :
  Spec.no_credential options ->
  Fetcher.returned (getCometAPIModels options) = Normal cometApiModels /\
  Fetcher.requests (getCometAPIModels options) = [].
Proof.
  intros H. now rewrite (resolver_without_key _ H).
Qed.

(** A filtered identifier is absent from the result as soon as the static
    table lists text-generation identifiers only. *)
Lemma filtered_absent (options : option Types.ApiHandlerOptions) (modelId : string) :
  (forall k, is_Some (cometApiModels !! k) -> Fetcher.isTextGenerationModel k = true) ->
  Spec.filtered modelId ->
  exists models,
    Fetcher.returned (getCometAPIModels options) = Normal models /\
    models !! modelId = None.
Proof.
  intros Hstatic Hf.
  assert (Hs : cometApiModels !! modelId = None).
  { destruct (cometApiModels !! modelId) eqn:E; [|reflexivity].
    assert (Ht : Fetcher.isTextGenerationModel modelId = true)
      by (apply Hstatic; rewrite E; eauto).
    rewrite (filtered_not_text _ Hf) in Ht. discriminate. }
  destruct (resolver_returns options) as (models & Hr & [Hm | (ds & Hm)]);
    exists models; (split; [exact Hr|]); rewrite Hm; [exact Hs|].
  apply lookup_union_None. split; [|exact Hs].
  now rewrite collect_lookup, (remote_entry_filtered _ _ Hf).
Qed.

End Resolver.

Lemma static_claude_text k :
  is_Some (StaticClaude.cometApiModels !! k) -> Fetcher.isTextGenerationModel k = true.
Proof.
  unfold StaticClaude.cometApiModels. intros [v H].
  apply lookup_insert_Some in H as [[<- _] | [_ H]]; [reflexivity|].
  apply lookup_insert_Some in H as [[<- _] | [_ H]]; [reflexivity|].
  now rewrite lookup_empty in H.
Qed.

Lemma static_comet_text k :
  is_Some (StaticComet.cometApiModels !! k) -> Fetcher.isTextGenerationModel k = true.
Proof.
  unfold StaticComet.cometApiModels. intros [v H].
  apply lookup_insert_Some in H as [[<- _] | [_ H]]; [reflexivity|].
  now rewrite lookup_empty in H.
Qed.

(** C5. Media-type filter.  An identifier that, compared
    case-insensitively, starts with a filtered prefix or contains a
    filtered substring is rejected by the filter and is never a key of the
    resolved catalog, whatever the remote listed; this holds with either
    static table.  The prefixes [tts], [mj_], [veo] and the substrings
    [dall-e], [stable-diffusion], [flux-] are among the filtered ones. *)
Theorem media_filter (modelId : string)
    (parseApiPrice : Fetcher.nullish string -> option float)
    (fetch : Fetcher.Request -> JS.completion Fetcher.Response)
    (options : option Types.ApiHandlerOptions) :
  Spec.filtered modelId ->
  Fetcher.isTextGenerationModel modelId = false /\
  (exists models,
     Fetcher.returned
       (Fetcher.getCometAPIModels StaticClaude.cometApiModels parseApiPrice fetch options)
     = Normal models /\ models !! modelId = None) /\
  (exists models,
     Fetcher.returned
       (Fetcher.getCometAPIModels StaticComet.cometApiModels parseApiPrice fetch options)
     = Normal models /\ models !! modelId = None) /\
  Forall (fun prefix => In prefix Fetcher.prefixPatterns) ["tts"; "mj_"; "veo"] /\
  Forall (fun pattern => In pattern Fetcher.imageGenPatterns)
         ["dall-e"; "stable-diffusion"; "flux-"].
Proof.
  intros Hf. split; [|split; [|split; [|split]]].
  - now apply filtered_not_text.
  - apply filtered_absent; [apply static_claude_text | exact Hf].
  - apply filtered_absent; [apply static_comet_text | exact Hf].
  - repeat (constructor; [simpl; auto 10|]); constructor.
  - repeat (constructor; [simpl; auto 10|]); constructor.
Qed.

End FetcherFacts.

(* ===================================================================== *)
(** ** The completion handler: properties                                 *)
(* ===================================================================== *)

Module HandlerFacts.

Import JS.

(** What [deltaText] keeps: the non-empty content of the first choice's
    delta. *)
Lemma deltaText_iff (chunk : Handler.ChatCompletionChunk) (text : string) :
  Handler.deltaText chunk = Some text <->
  text <> "" /\
  exists first others d,
    Handler.choices chunk = first :: others /\
    Handler.delta first = Some d /\ Handler.content d = Some text.
Proof.
  unfold Handler.deltaText. split.
  - destruct (Handler.choices chunk) as [|first others]; [discriminate|].
    destruct (Handler.delta first) as [d|] eqn:Hd; [|discriminate].
    destruct (Handler.content d) as [t|] eqn:Hc; [|discriminate].
    destruct (String.eqb_spec t ""); simpl; [discriminate|].
    intros [= <-]. split; [assumption|]. now exists first, others, d.
  - intros (Hne & first & others & d & -> & -> & ->).
    destruct (String.eqb_spec text ""); [contradiction | reflexivity].
Qed.

(** The loop, in closed form. *)
Lemma consume_closed chunks failure lastUsage :
  Handler.consume chunks failure lastUsage =
  (map Handler.Text (Spec.texts (Spec.before_error chunks)),
   match Spec.first_error chunks with
   | Some err => Throw (Handler.inBandError err)
   | None =>
       match failure with
       | Some e => Throw e
       | None =>
           Normal (match Spec.latest_usage chunks with
                   | Some u => Some u
                   | None => lastUsage
                   end)
       end
   end).
Proof.
  revert lastUsage. induction chunks as [|chunk rest IH]; intros lastUsage; simpl.
  - now destruct failure.
  - destruct (Handler.error chunk) as [err|]; [reflexivity|].
    rewrite IH. unfold Spec.texts. simpl.
    destruct (Handler.deltaText chunk); simpl;
      (f_equal;
       destruct (Spec.first_error rest); [reflexivity|];
       destruct failure; [reflexivity|];
       destruct (Spec.latest_usage rest); [reflexivity|];
       now destruct (Handler.usage chunk)).
Qed.

Lemma before_error_app pre errChunk rest :
  Forall (fun ch => Handler.error ch = None) pre ->
  is_Some (Handler.error errChunk) ->
  Spec.before_error (pre ++ errChunk :: rest) = pre.
Proof.
  intros Hpre [err Herr]. induction Hpre as [|ch pre Hch _ IH]; simpl.
  - now rewrite Herr.
  - now rewrite Hch, IH.
Qed.

Lemma first_error_app pre errChunk rest :
  Forall (fun ch => Handler.error ch = None) pre ->
  Spec.first_error (pre ++ errChunk :: rest) =
  match Handler.error errChunk with
  | Some err => Some err
  | None => Spec.first_error rest
  end.
Proof.
  intros Hpre. induction Hpre as [|ch pre Hch _ IH]; simpl; [reflexivity|].
  now rewrite Hch, IH.
Qed.

Lemma latest_usage_none chunks :
  Forall (fun ch => Handler.usage ch = None) chunks -> Spec.latest_usage chunks = None.
Proof.
  induction 1 as [|ch rest Hch _ IH]; simpl; [reflexivity|]. now rewrite IH.
Qed.

(** *** The readable-message transform *)

Lemma defined_cases (v : value) :
  Spec.defined v \/ v = VUndefined \/ v = VNull.
Proof. unfold Spec.defined. destruct v; auto; left; split; discriminate. Qed.

Lemma getProp_defined v k : Spec.defined v -> getProp v k = Normal (get v k).
Proof. intros [H1 H2]. now destruct v. Qed.

Lemma optGet_defined v k : Spec.defined v -> optGet v k = get v k.
Proof. intros [H1 H2]. now destruct v. Qed.

Lemma is_nullish_defined v : Spec.defined v -> is_nullish v = false.
Proof. intros [H1 H2]. now destruct v. Qed.

Lemma get_not_defined v k : ~ Spec.defined v -> get v k = VUndefined.
Proof.
  intros H. destruct v; try reflexivity. exfalso. apply H. split; discriminate.
Qed.

(** [details.map(detail => detail.retryDelay)] on an array. *)
Lemma map_retryDelay_iff (items ys : list value) :
  Handler.mapM_completion (fun detail => getProp detail "retryDelay") items = Normal ys
  <-> Forall Spec.defined items /\ ys = map (fun detail => get detail "retryDelay") items.
Proof.
  revert ys. induction items as [|x rest IH]; intros ys; simpl.
  - split; [intros [= <-]; auto | intros [_ ->]; reflexivity].
  - destruct (defined_cases x) as [Hx | Hx].
    + rewrite (getProp_defined _ _ Hx). simpl.
      destruct (Handler.mapM_completion _ rest) as [zs|e] eqn:E; simpl.
      * destruct (proj1 (IH zs) eq_refl) as [Hall ->]. split.
        -- intros [= <-]. auto.
        -- intros [_ ->]. reflexivity.
      * split; [discriminate|]. intros [Hall _]. inversion Hall as [|? ? _ Hrest]; subst.
        assert (Hc : @Throw (list value) e = Normal (map (fun d => get d "retryDelay") rest))
          by (apply IH; auto).
        discriminate.
    + split.
      * destruct Hx as [-> | ->]; discriminate.
      * intros [Hall _]. inversion Hall as [|? ? [H1 H2] _]; subst.
        destruct Hx; contradiction.
Qed.

(** [.filter(r => r)[0]] *)
Lemma first_of_filter_iff (vs : list value) (d : value) :
  match List.filter truthy vs with r :: _ => r | [] => VUndefined end = d /\
  truthy d = true
  <-> Spec.first_truthy vs d.
Proof.
  unfold Spec.first_truthy. induction vs as [|v rest IH]; simpl.
  - split.
    + intros [<- H]. discriminate.
    + intros (before & after & H & _). now destruct before.
  - destruct (truthy v) eqn:Hv.
    + split.
      * intros [<- _]. exists [], rest. auto.
      * intros (before & after & H & Hb & Hd). destruct before as [|b before].
        -- injection H as -> _. auto.
        -- injection H as <- _. inversion Hb; subst. congruence.
    + rewrite IH. split.
      * intros (before & after & -> & Hb & Hd). exists (v :: before), after. auto.
      * intros (before & after & H & Hb & Hd). destruct before as [|b before].
        -- injection H as -> _. congruence.
        -- injection H as _ ->. inversion Hb; subst. now exists before, after.
Qed.

Section Transform.

Variable JSON_parse : string -> option value.

(** The [try] block finds exactly the retry delays of the specification. *)
Lemma retryAfter_found_iff (error delay : value) :
  Spec.defined error ->
  (Handler.retryAfter_of JSON_parse error = Normal delay /\ truthy delay = true)
  <-> Spec.retry_delay_found JSON_parse error delay.
Proof.
  intros Herr. unfold Handler.retryAfter_of, Spec.retry_delay_found.
  rewrite (getProp_defined _ _ Herr). simpl.
  destruct (defined_cases (get error "error")) as [Hinner | Hinner].
  2:{ split.
      - destruct Hinner as [-> | ->]; simpl; intros [? _]; discriminate.
      - intros (? & ? & [H1 H2] & _). destruct Hinner; contradiction. }
  rewrite (getProp_defined _ _ Hinner). simpl.
  unfold Handler.JSON_parse_value.
  destruct (JSON_parse _) as [parsed|] eqn:Hparse; simpl.
  2:{ split; [intros [? _]; discriminate|]. intros (? & ? & _ & ? & _). discriminate. }
  destruct (defined_cases (optGet parsed "error")) as [Hpe | Hpe].
  2:{ split.
      - cbv zeta. destruct Hpe as [-> | ->]; intros [[= <-] ?]; discriminate.
      - intros (p & ds & _ & [= <-] & [H1 H2] & _). destruct Hpe; contradiction. }
  cbv zeta. rewrite (is_nullish_defined _ Hpe).
  split.
  - intros [Hrun Ht].
    destruct (get (optGet parsed "error") "details") as [| | | | |items|] eqn:Hd;
      simpl in Hrun; try discriminate.
    destruct (Handler.mapM_completion _ items) as [ys|e] eqn:Hmap; simpl in Hrun;
      [|discriminate].
    apply map_retryDelay_iff in Hmap as [Hall ->].
    injection Hrun as Hrun.
    exists parsed, items. repeat split; try (apply Hinner || apply Hpe); auto.
    now apply first_of_filter_iff.
  - intros (p & items & _ & [= <-] & _ & Hd & Hall & Hfirst).
    rewrite Hd. simpl.
    rewrite (proj2 (map_retryDelay_iff items _) (conj Hall eq_refl)). simpl.
    apply first_of_filter_iff in Hfirst as [-> Ht]. auto.
Qed.

Lemma rate_limited_defined (error : value) : Spec.rate_limited error -> Spec.defined error.
Proof. intros [H | H]; destruct error; try discriminate; split; discriminate. Qed.

Lemma rate_limited_iff (error : value) :
  negb (strictEqNum (optGet error "code") 429)
  && negb (strictEqNum (optGet error "code") 418) = false
  <-> Spec.rate_limited error.
Proof.
  unfold Spec.rate_limited.
  destruct (optGet error "code") as [| | |n| | |]; simpl;
    try (split; [discriminate | intros [H | H]; discriminate]).
  destruct (Z.eqb_spec n 429) as [->|H1]; simpl; [split; auto|].
  destruct (Z.eqb_spec n 418) as [->|H2]; simpl; [split; auto|].
  split; [discriminate|]. intros [[= ->] | [= ->]]; contradiction.
Qed.

(** The transform, by cases. *)
Lemma readable_other (error : value) :
  ~ Spec.rate_limited error ->
  Handler.makeCometAPIErrorReadable JSON_parse error
  = Normal ("CometAPI Error: " ++ Spec.original_message error).
Proof.
  intros H. unfold Handler.makeCometAPIErrorReadable.
  destruct (negb _ && negb _) eqn:E; [reflexivity|].
  apply rate_limited_iff in E. contradiction.
Qed.


Lemma readable_generic (error : value) :
  Spec.rate_limited error ->
  (forall delay, ~ Spec.retry_delay_found JSON_parse error delay) ->
  Handler.makeCometAPIErrorReadable JSON_parse error
  = Normal ("Rate limit exceeded, try again later." ++ Str.LF
            ++ Spec.original_message error).
Proof.
  intros Hr Hnone. unfold Handler.makeCometAPIErrorReadable.
  rewrite (proj2 (rate_limited_iff error) Hr).
  destruct (Handler.retryAfter_of JSON_parse error) as [d|e] eqn:Hrun; simpl;
    [|reflexivity].
  destruct (truthy d) eqn:Ht; simpl; [|reflexivity].
  exfalso. apply (Hnone d).
  apply (retryAfter_found_iff _ _ (rate_limited_defined _ Hr)). auto.
Qed.

(** The transform applied to the error thrown for an in-band error
    object: the wrapping [Error] carries no [code], and its message is not
    empty. *)
Lemma readable_in_band (err : value) :
  Handler.makeCometAPIErrorReadable JSON_parse (Handler.inBandError err)
  = Normal ("CometAPI Error: CometAPI Error " ++ tmpl (optGet err "code") ++ ": "
            ++ tmpl (optGet err "message")).
Proof. reflexivity. Qed.

End Transform.

Section Provider.

Variable cometApiModels : gmap string Types.ModelInfo.
Variable cometApiDefaultModelId : string.
Variable parseApiPrice : Fetcher.nullish string -> option float.
Variable fetch : Fetcher.Request -> completion Fetcher.Response.
Variable convertToOpenAiMessages : list value -> list value.
Variable deriveMaxTokens :
  string -> option Types.ModelInfo -> Types.ApiHandlerOptions -> option Z.
Variable JSON_parse : string -> option value.
Variable options : Types.ApiHandlerOptions.

Abbreviation fetchModel :=
  (Handler.fetchModel cometApiModels cometApiDefaultModelId parseApiPrice fetch
     deriveMaxTokens options).
Abbreviation createMessage create_stream :=
  (Handler.createMessage cometApiModels cometApiDefaultModelId parseApiPrice fetch
     convertToOpenAiMessages deriveMaxTokens JSON_parse create_stream options).
Abbreviation completePrompt create_completion :=
  (Handler.completePrompt cometApiModels cometApiDefaultModelId parseApiPrice fetch
     deriveMaxTokens create_completion options).

(** Resolving the model never fails. *)
Lemma fetchModel_returns : exists m, fetchModel = Normal m.
Proof.
  unfold Handler.fetchModel.
  destruct (FetcherFacts.resolver_returns cometApiModels parseApiPrice fetch (Some options))
    as (models & -> & _).
  simpl. eauto.
Qed.

(** A run of the generator over a stream the client delivered. *)
Lemma createMessage_over stream systemPrompt messages :
  let run := createMessage (fun _ => Normal stream) systemPrompt messages in
  Handler.yielded run =
    (map Handler.Text (Spec.texts (Spec.before_error (Handler.chunks stream)))
     ++ match Spec.first_error (Handler.chunks stream), Handler.failure stream with
        | None, None =>
            match Spec.latest_usage (Handler.chunks stream) with
            | Some u => [Handler.usageChunk u]
            | None => []
            end
        | _, _ => []
        end)%list /\
  Handler.finished run =
    match Spec.first_error (Handler.chunks stream), Handler.failure stream with
    | Some err, _ =>
        bind (Handler.makeCometAPIErrorReadable JSON_parse (Handler.inBandError err))
             (fun errorMessage => Throw (newError errorMessage))
    | None, Some e =>
        bind (Handler.makeCometAPIErrorReadable JSON_parse e)
             (fun errorMessage => Throw (newError errorMessage))
    | None, None => Normal tt
    end.
Proof.
  unfold Handler.createMessage. destruct fetchModel_returns as [m ->].
  rewrite consume_closed.
  destruct (Spec.first_error (Handler.chunks stream)) as [err|]; simpl.
  - now rewrite app_nil_r.
  - destruct (Handler.failure stream) as [e|]; simpl.
    + now rewrite app_nil_r.
    + now destruct (Spec.latest_usage (Handler.chunks stream)).
Qed.

(** A run that meets an in-band error object after the chunks [pre]. *)
Lemma createMessage_in_band pre errChunk rest failure err systemPrompt messages :
  Forall (fun chunk => Handler.error chunk = None) pre ->
  Handler.error errChunk = Some err ->
  let run :=
    createMessage
      (fun _ => Normal {| Handler.chunks := (pre ++ errChunk :: rest)%list;
                          Handler.failure := failure |})
      systemPrompt messages in
  Handler.yielded run = map Handler.Text (Spec.texts pre) /\
  Handler.finished run =
    Throw (newError ("CometAPI Error: CometAPI Error " ++ tmpl (optGet err "code")
                     ++ ": " ++ tmpl (optGet err "message"))).
Proof.
  intros Hpre Herr run. subst run.
  match goal with |- context [createMessage ?c _ _] =>
    destruct (createMessage_over
                {| Handler.chunks := (pre ++ errChunk :: rest)%list;
                   Handler.failure := failure |} systemPrompt messages) as [Hy Hf]
  end.
  cbv zeta in Hy, Hf. rewrite Hy, Hf. cbn [Handler.chunks Handler.failure].
  rewrite (first_error_app _ _ _ Hpre), Herr.
  rewrite before_error_app; [|exact Hpre | rewrite Herr; eauto].
  rewrite readable_in_band. simpl. now rewrite app_nil_r.
Qed.





(** The streaming request: [max_tokens] is present exactly when the
    resolved limit is strictly positive, and the temperature is the
    caller's or 0. *)
Lemma stream_request_parameters m systemPrompt messages n :
  (Handler.max_tokens (Handler.streamParams convertToOpenAiMessages m systemPrompt messages)
   = Some n <-> Handler.maxTokens m = Some n /\ 0 < n) /\
  Handler.temperature (Handler.streamParams convertToOpenAiMessages m systemPrompt messages)
  = Handler.model_temperature m.
Proof.
  split; [|reflexivity]. simpl.
  destruct (Handler.maxTokens m) as [k|]; [|split; [discriminate | intros [? _]; discriminate]].
  destruct (Z.eqb_spec k 0) as [->|Hk]; simpl.
  - split; [discriminate | intros [[= <-] ?]; lia].
  - destruct (Z.gtb_spec k 0); split.
    + intros [= <-]. split; [reflexivity | lia].
    + now intros [[= <-] _].
    + discriminate.
    + intros [[= <-] ?]. lia.
Qed.

Lemma resolved_temperature models :
  Handler.model_temperature
    (Handler.getModel cometApiModels cometApiDefaultModelId deriveMaxTokens options models)
  = Some (match Types.modelTemperature options with
          | Some t => t
          | None => 0%float
          end).
Proof. reflexivity. Qed.

Lemma resolved_maxTokens m :
  fetchModel = Normal m ->
  Handler.maxTokens m = deriveMaxTokens (Handler.id m) (Handler.info m) options.
Proof.
  unfold Handler.fetchModel.
  destruct (Fetcher.returned _); simpl; [|discriminate].
  now intros [= <-].
Qed.

(** Each run hands exactly one request to the client. *)
Lemma createMessage_calls create_stream systemPrompt messages :
  exists m,
    fetchModel = Normal m /\
    Handler.gen_calls (createMessage create_stream systemPrompt messages)
    = [Handler.streamParams convertToOpenAiMessages m systemPrompt messages].
Proof.
  destruct fetchModel_returns as [m Hm]. exists m. split; [exact Hm|].
  unfold Handler.createMessage. rewrite Hm.
  destruct (create_stream _); [|reflexivity].
  now destruct (Handler.consume _ _ _) as [texts [lastUsage|e]].
Qed.

Lemma completePrompt_calls create_completion prompt :
  exists m,
    fetchModel = Normal m /\
    Handler.calls (completePrompt create_completion prompt)
    = [Handler.promptParams m prompt].
Proof.
  destruct fetchModel_returns as [m Hm]. exists m. split; [exact Hm|].
  unfold Handler.completePrompt. now rewrite Hm.
Qed.

End Provider.

(** C9, at an input where the code departs from it.  With a resolved token
    limit of 0 the single-shot request carries [max_tokens: 0], while the
    streaming request, built from the same model, leaves [max_tokens]
    out. *)
Theorem single_shot_max_tokens_unguarded
    (cometApiModels : gmap string Types.ModelInfo) (cometApiDefaultModelId : string)
    (parseApiPrice : Fetcher.nullish string -> option float)
    (fetch : Fetcher.Request -> completion Fetcher.Response)
    (convertToOpenAiMessages : list value -> list value)
    (JSON_parse : string -> option value)
    (create_stream : Handler.ChatCompletionCreateParams -> completion Handler.Stream)
    (create_completion :
       Handler.ChatCompletionCreateParams -> completion Handler.ChatCompletion)
    (options : Types.ApiHandlerOptions)
    (systemPrompt prompt : string) (messages : list value) :
  map Handler.max_tokens
    (Handler.calls
       (Handler.completePrompt cometApiModels cometApiDefaultModelId parseApiPrice fetch
          (fun _ _ _ => Some 0) create_completion options prompt))
  = [Some 0] /\
  map Handler.max_tokens
    (Handler.gen_calls
       (Handler.createMessage cometApiModels cometApiDefaultModelId parseApiPrice fetch
          convertToOpenAiMessages (fun _ _ _ => Some 0) JSON_parse create_stream
          options systemPrompt messages))
  = [None].
Proof.
  split.
  - destruct (completePrompt_calls cometApiModels cometApiDefaultModelId parseApiPrice
                fetch (fun _ _ _ => Some 0) options create_completion prompt)
      as (m & Hm & ->).
    apply resolved_maxTokens in Hm. simpl. now rewrite Hm.
  - destruct (createMessage_calls cometApiModels cometApiDefaultModelId parseApiPrice
                fetch convertToOpenAiMessages (fun _ _ _ => Some 0) JSON_parse options
                create_stream systemPrompt messages)
      as (m & Hm & ->).
    apply resolved_maxTokens in Hm. simpl. now rewrite Hm.
Qed.

End HandlerFacts.

(* ===================================================================== *)
(** ** Cost arithmetic                                                    *)
(* ===================================================================== *)

Module CostFacts.

Lemma same_number_spec (x y : float) :
  Spec.same_number x y = Spec.sf_same (Prim2SF x) (Prim2SF y).
Proof.
  unfold Spec.same_number, Spec.sf_same, PrimFloat.is_nan. now rewrite !FloatAxioms.eqb_spec.
Qed.

Lemma sf_same_refl (x : spec_float) : Spec.sf_same x x = true.
Proof.
  unfold Spec.sf_same. destruct (SFeqb x x); reflexivity.
Qed.

Lemma is_zero_spec (f : float) :
  PrimFloat.is_zero f = true -> exists s, Prim2SF f = S754_zero s.
Proof.
  unfold PrimFloat.is_zero. rewrite FloatAxioms.eqb_spec.
  change (Prim2SF zero) with (S754_zero false).
  destruct (Prim2SF f) as [s| s | |s m e]; try (now eauto); try discriminate;
    unfold SFeqb, SFcompare; destruct s; discriminate.
Qed.

Lemma add_zero_alike (a a' b b' : float) :
  Spec.zero_alike a a' -> Spec.zero_alike b b' ->
  Spec.same_number (a + b) (a' + b') = true.
Proof.
  intros Ha Hb. rewrite same_number_spec, !FloatAxioms.add_spec. unfold SF64add.
  destruct Ha as [<- | [Ha Ha']], Hb as [<- | [Hb Hb']].
  - apply sf_same_refl.
  - apply is_zero_spec in Hb as [s ->], Hb' as [s' ->].
    destruct (Prim2SF a) as [t| t | |t m e]; simpl;
      try apply sf_same_refl; now destruct t, s, s'.
  - apply is_zero_spec in Ha as [s ->], Ha' as [s' ->].
    destruct (Prim2SF b) as [t| t | |t m e]; simpl;
      try apply sf_same_refl; now destruct t, s, s'.
  - apply is_zero_spec in Ha as [s ->], Ha' as [s' ->].
    apply is_zero_spec in Hb as [t ->], Hb' as [t' ->].
    now destruct s, s', t, t'.
Qed.

Lemma or_zero_alike (x : option float) :
  Spec.decoded x -> Spec.zero_alike (Handler.or_zero x) (Spec.or_default x).
Proof.
  destruct x as [f|]; simpl; [|now left].
  intros Hnan. unfold Handler.truthy_number. rewrite Hnan, orb_false_r.
  destruct (PrimFloat.is_zero f) eqn:Hz; simpl; [|now left].
  right. split; [reflexivity | exact Hz].
Qed.

Lemma or_zero_exact (x : option float) :
  Spec.decoded x -> Spec.unsigned_zero x -> Handler.or_zero x = Spec.or_default x.
Proof.
  destruct x as [f|]; simpl; [|reflexivity].
  intros Hnan Hneg. unfold Handler.truthy_number. rewrite Hnan, orb_false_r.
  destruct (PrimFloat.is_zero f) eqn:Hz; simpl; [|reflexivity].
  apply is_zero_spec in Hz as [sign Hz].
  rewrite <- (FloatAxioms.SF2Prim_Prim2SF f), Hz in Hneg |- *.
  destruct sign; [now destruct Hneg | reflexivity].
Qed.

Lemma or_zero_counted (x : option float) :
  Spec.zero_alike (Handler.or_zero x) (Spec.or_default (Spec.counted x)).
Proof.
  destruct x as [f|]; simpl; [|now left].
  unfold Handler.truthy_number.
  destruct (PrimFloat.is_nan f) eqn:Hnan; simpl.
  - rewrite orb_true_r. now left.
  - rewrite orb_false_r.
    destruct (PrimFloat.is_zero f) eqn:Hz; simpl; [|now left].
    right. split; [reflexivity | exact Hz].
Qed.

End CostFacts.

(* ===================================================================== *)
(** ** The handler over answers as they arrive: properties                *)
(* ===================================================================== *)

Module WireFacts.

Import JS.

(** What [deltaText] answers on a chunk that has [choices]: the text the
    chunk carries, if it carries one. *)
Lemma deltaText_carries (chunk : Wire.Chunk) :
  Wire.choices chunk <> None ->
  (exists text, Wire.deltaText chunk = Normal (Some text) /\ Spec.carries chunk text) \/
  (Wire.deltaText chunk = Normal None /\ forall text, ~ Spec.carries chunk text).
Proof.
  unfold Wire.deltaText, Wire.read_chunk. intros Hc.
  destruct (Wire.choices chunk) as [present|] eqn:Hcs; [|contradiction]. simpl.
  destruct (Handler.deltaText _) as [text|] eqn:Hd.
  - left. exists text. split; [reflexivity|].
    apply HandlerFacts.deltaText_iff in Hd as (Hne & first & others & d & H & H1 & H2).
    simpl in H. subst present.
    now apply (Spec.carries_first_choice _ _ first others d).
  - right. split; [reflexivity|]. intros text [first others d H H1 H2 Hne].
    rewrite Hcs in H. injection H as ->.
    enough (Handler.deltaText
              {| Handler.error := Wire.error chunk;
                 Handler.choices := first :: others;
                 Handler.usage := Wire.usage chunk |} = Some text) by congruence.
    apply HandlerFacts.deltaText_iff. split; [exact Hne|]. now exists first, others, d.
Qed.

(** A chunk carries at most one text, and never the empty one. *)
Lemma carries_functional chunk text text' :
  Spec.carries chunk text -> Spec.carries chunk text' -> text = text'.
Proof.
  intros [f o d H H1 H2 _] [f' o' d' H' H1' H2' _]. congruence.
Qed.

(** The texts of a chunk sequence are determined by it. *)
Lemma text_deltas_functional chunks texts texts' :
  Spec.text_deltas chunks texts -> Spec.text_deltas chunks texts' -> texts = texts'.
Proof.
  intros H. revert texts'.
  induction H as [|chunk text chunks texts Hc _ IH|chunk chunks texts Hn _ IH];
    intros texts' H'.
  - now inversion H'.
  - inversion H' as [|? text' ? rest' Hc' Hrest|? ? ? Hn' Hrest]; subst.
    + f_equal; [now apply (carries_functional chunk) | now apply IH].
    + now destruct (Hn' text).
  - inversion H' as [|? text' ? rest' Hc' Hrest|? ? ? Hn' Hrest]; subst.
    + now destruct (Hn text').
    + now apply IH.
Qed.

Lemma text_deltas_nonempty chunks texts :
  Spec.text_deltas chunks texts -> Forall (fun text => text <> "") texts.
Proof.
  induction 1 as [|chunk text chunks texts [f o d _ _ _ Hne] _ IH|]; auto.
Qed.

Lemma stops_false chunk :
  Spec.stops chunk = false -> Wire.error chunk = None /\ Wire.choices chunk <> None.
Proof.
  unfold Spec.stops.
  destruct (Wire.error chunk); [discriminate|].
  destruct (Wire.choices chunk); [now split | discriminate].
Qed.

Lemma reached_all chunks :
  Forall (fun chunk => Spec.stops chunk = false) chunks -> Spec.reached chunks = chunks.
Proof.
  induction 1 as [|chunk rest H _ IH]; simpl; [reflexivity|]. now rewrite H, IH.
Qed.

Lemma reached_app pre chunk rest :
  Forall (fun c => Spec.stops c = false) pre -> Spec.stops chunk = true ->
  Spec.reached (pre ++ chunk :: rest) = pre.
Proof.
  intros Hpre Hstop. induction Hpre as [|c pre Hc _ IH]; simpl.
  - now rewrite Hstop.
  - now rewrite Hc, IH.
Qed.

(** The events of the loop: one [Text] per chunk reached that carries a
    non-empty text delta. *)
Lemma consume_events chunks failure lastUsage :
  exists texts,
    fst (Wire.consume chunks failure lastUsage) = map Handler.Text texts /\
    Spec.text_deltas (Spec.reached chunks) texts.
Proof.
  revert lastUsage. induction chunks as [|chunk rest IH]; intros lastUsage; simpl.
  - exists []. split; [now destruct failure | constructor].
  - destruct (Spec.stops chunk) eqn:Hs.
    + exists []. split; [|constructor]. unfold Spec.stops in Hs.
      destruct (Wire.error chunk); [reflexivity|].
      unfold Wire.deltaText, Wire.read_chunk.
      destruct (Wire.choices chunk); [discriminate | reflexivity].
    + apply stops_false in Hs as [-> Hc].
      destruct (IH (match Wire.usage chunk with Some u => Some u | None => lastUsage end))
        as (texts & Hfst & Hdeltas).
      destruct (Wire.consume rest failure _) as [later ending].
      simpl in Hfst. subst later.
      destruct (deltaText_carries chunk Hc) as [(text & -> & Hcar) | [-> Hnone]].
      * exists (text :: texts). split; [reflexivity | now constructor].
      * exists texts. split; [reflexivity | now apply Spec.deltas_silent].
Qed.

(** Where the loop ends normally, [lastUsage] is left alone by chunks
    without usage. *)
Lemma consume_usage chunks failure lastUsage final :
  snd (Wire.consume chunks failure lastUsage) = Normal final ->
  Forall (fun chunk => Wire.usage chunk = None) chunks ->
  final = lastUsage.
Proof.
  intros Hend Hnone. revert lastUsage Hend.
  induction Hnone as [|chunk rest Hu _ IH]; intros lastUsage; simpl.
  - destruct failure; [discriminate | now intros [= <-]].
  - destruct (Wire.error chunk); [discriminate|].
    destruct (Wire.deltaText chunk); [|discriminate].
    rewrite Hu. specialize (IH lastUsage).
    destruct (Wire.consume rest failure lastUsage) as [later ending]. exact IH.
Qed.

(** A loop that meets no stopping chunk and no failure ends normally. *)
Lemma consume_through chunks lastUsage :
  Forall (fun chunk => Spec.stops chunk = false) chunks ->
  exists final, snd (Wire.consume chunks None lastUsage) = Normal final.
Proof.
  intros H. revert lastUsage. induction H as [|chunk rest Hs _ IH]; intros lastUsage; simpl.
  - eauto.
  - apply stops_false in Hs as [-> Hc].
    destruct (deltaText_carries chunk Hc) as [(text & -> & _) | [-> _]];
      destruct (IH (match Wire.usage chunk with Some u => Some u | None => lastUsage end))
        as [final Hfinal];
      destruct (Wire.consume rest None _) as [later ending]; eauto.
Qed.

(** It ends with the usage payload of the last chunk that carried one. *)
Lemma consume_last_usage pre chunk post u lastUsage :
  Forall (fun c => Spec.stops c = false) (pre ++ chunk :: post) ->
  Wire.usage chunk = Some u ->
  Forall (fun c => Wire.usage c = None) post ->
  snd (Wire.consume (pre ++ chunk :: post) None lastUsage) = Normal (Some u).
Proof.
  intros Hs Hu Hpost. revert lastUsage.
  induction pre as [|c pre IH]; intros lastUsage; simpl in *.
  - inversion Hs as [|? ? Hc Hrest]; subst.
    apply stops_false in Hc as [-> Hc]. rewrite Hu.
    destruct (consume_through post (Some u) Hrest) as [final Hfinal].
    pose proof (consume_usage post None (Some u) final Hfinal Hpost) as ->.
    destruct (deltaText_carries chunk Hc) as [(text & -> & _) | [-> _]];
      destruct (Wire.consume post None (Some u)) as [later ending]; exact Hfinal.
  - inversion Hs as [|? ? Hc Hrest]; subst.
    apply stops_false in Hc as [-> Hc].
    specialize (IH Hrest (match Wire.usage c with Some u0 => Some u0 | None => lastUsage end)).
    destruct (deltaText_carries c Hc) as [(text & -> & _) | [-> _]];
      destruct (Wire.consume (pre ++ chunk :: post) None _) as [later ending]; exact IH.
Qed.

(** The loop stops at a chunk without [choices], with the TypeError of
    the read. *)
Lemma consume_without_choices pre chunk rest failure lastUsage :
  Forall (fun c => Spec.stops c = false) pre ->
  Wire.error chunk = None -> Wire.choices chunk = None ->
  snd (Wire.consume (pre ++ chunk :: rest) failure lastUsage)
  = Throw (TypeError "Cannot read properties of undefined (reading '0')").
Proof.
  intros Hpre He Hc. revert lastUsage.
  induction Hpre as [|c pre Hs _ IH]; intros lastUsage; simpl.
  - rewrite He. unfold Wire.deltaText, Wire.read_chunk. now rewrite Hc.
  - apply stops_false in Hs as [-> Hcs].
    specialize (IH (match Wire.usage c with Some u0 => Some u0 | None => lastUsage end)).
    destruct (deltaText_carries c Hcs) as [(text & -> & _) | [-> _]];
      destruct (Wire.consume (pre ++ chunk :: rest) failure _) as [later ending]; exact IH.
Qed.

(** On answers that have the client's type, the loop is [Handler.consume]. *)
Lemma consume_typed chunks failure lastUsage :
  Wire.consume (map Wire.of_chunk chunks) failure lastUsage
  = Handler.consume chunks failure lastUsage.
Proof.
  revert lastUsage. induction chunks as [|chunk rest IH]; intros lastUsage; simpl.
  - reflexivity.
  - destruct (Handler.error chunk); [reflexivity|].
    rewrite IH. unfold Wire.deltaText. simpl.
    now destruct chunk.
Qed.

Section Provider.

Variable cometApiModels : gmap string Types.ModelInfo.
Variable cometApiDefaultModelId : string.
Variable parseApiPrice : Fetcher.nullish string -> option float.
Variable fetch : Fetcher.Request -> completion Fetcher.Response.
Variable convertToOpenAiMessages : list value -> list value.
Variable deriveMaxTokens :
  string -> option Types.ModelInfo -> Types.ApiHandlerOptions -> option Z.
Variable JSON_parse : string -> option value.
Variable options : Types.ApiHandlerOptions.

Abbreviation createMessage create_stream :=
  (Wire.createMessage cometApiModels cometApiDefaultModelId parseApiPrice fetch
     convertToOpenAiMessages deriveMaxTokens JSON_parse create_stream options).
Abbreviation completePrompt create_completion :=
  (Wire.completePrompt cometApiModels cometApiDefaultModelId parseApiPrice fetch
     deriveMaxTokens create_completion options).

(** A run of the generator over a stream the client delivered. *)
Lemma createMessage_run stream systemPrompt messages :
  let run := createMessage (fun _ => Normal stream) systemPrompt messages in
  let loop := Wire.consume (Wire.chunks stream) (Wire.failure stream) None in
  Handler.yielded run
  = (fst loop ++ match snd loop with
                 | Normal (Some u) => [Handler.usageChunk u]
                 | _ => []
                 end)%list /\
  Handler.finished run
  = match snd loop with
    | Throw e =>
        bind (Handler.makeCometAPIErrorReadable JSON_parse e)
             (fun errorMessage => Throw (newError errorMessage))
    | Normal _ => Normal tt
    end.
Proof.
  unfold Wire.createMessage.
  destruct (HandlerFacts.fetchModel_returns cometApiModels cometApiDefaultModelId
              parseApiPrice fetch deriveMaxTokens options) as [m ->].
  cbv zeta.
  destruct (Wire.consume (Wire.chunks stream) (Wire.failure stream) None)
    as [texts [lastUsage | e]]; simpl.
  - now destruct lastUsage.
  - now rewrite app_nil_r.
Qed.

(** On a stream that has the client's type, the run is that of
    [Handler.createMessage]. *)
Lemma createMessage_typed stream systemPrompt messages :
  createMessage (fun _ => Normal (Wire.of_stream stream)) systemPrompt messages
  = Handler.createMessage cometApiModels cometApiDefaultModelId parseApiPrice fetch
      convertToOpenAiMessages deriveMaxTokens JSON_parse (fun _ => Normal stream)
      options systemPrompt messages.
Proof.
  unfold Wire.createMessage, Handler.createMessage.
  destruct (Handler.fetchModel _ _ _ _ _ _); [|reflexivity].
  cbv zeta. unfold Wire.of_stream. simpl. now rewrite consume_typed.
Qed.

(** Likewise for a body that has the client's type. *)
Lemma completePrompt_typed response prompt :
  completePrompt (fun _ => Normal (Wire.of_body response)) prompt
  = Handler.completePrompt cometApiModels cometApiDefaultModelId parseApiPrice fetch
      deriveMaxTokens (fun _ => Normal response) options prompt.
Proof.
  unfold Wire.completePrompt, Handler.completePrompt.
  destruct (Handler.fetchModel _ _ _ _ _ _); [|reflexivity].
  cbv zeta. unfold Wire.firstContent. now destruct response as [[err|] present].
Qed.

(** C1. Whatever chunk sequence the client delivers, with or without
    [choices] in its chunks, the generator yields one [Text] per chunk it
    got through that carries a non-empty text delta, in arrival order,
    then at most one [Usage]; it yields no [Usage] when no chunk carried a
    usage payload; and on the sequence [A], [B]-with-usage it yields
    exactly [Text A], [Text B], [Usage 10 20] with total cost 0. *)
Theorem stream_events (stream : Wire.Stream) (systemPrompt : string)
    (messages : list value) :
  (exists texts tail,
     Handler.yielded (createMessage (fun _ => Normal stream) systemPrompt messages)
     = (map Handler.Text texts ++ tail)%list /\
     Spec.text_deltas (Spec.reached (Wire.chunks stream)) texts /\
     (tail = [] \/ exists u, tail = [Handler.usageChunk u]) /\
     (Forall (fun chunk => Wire.usage chunk = None) (Wire.chunks stream) ->
      tail = [])) /\
  Handler.yielded
    (createMessage (fun _ => Normal (Wire.of_stream Examples.streamAB))
       systemPrompt messages)
  = [Handler.Text "A"; Handler.Text "B"; Handler.Usage 10 20 None None 0%float] /\
  Handler.finished
    (createMessage (fun _ => Normal (Wire.of_stream Examples.streamAB))
       systemPrompt messages)
  = Normal tt.
Proof.
  split; [|split].
  - destruct (createMessage_run stream systemPrompt messages) as [-> _].
    destruct (consume_events (Wire.chunks stream) (Wire.failure stream) None)
      as (texts & Hfst & Hdeltas).
    rewrite Hfst. exists texts. eexists. split; [reflexivity|].
    split; [exact Hdeltas|]. split.
    + destruct (snd _) as [[u|]|e]; [right; eauto | now left | now left].
    + intros Hnone.
      destruct (snd _) as [[u|]|e] eqn:Hend; [|reflexivity|reflexivity].
      now pose proof (consume_usage _ _ _ _ Hend Hnone).
  - now destruct (createMessage_run (Wire.of_stream Examples.streamAB) systemPrompt messages)
      as [-> _].
  - now destruct (createMessage_run (Wire.of_stream Examples.streamAB) systemPrompt messages)
      as [_ ->].
Qed.

(** C7 (amended). Where the stream ends normally and [u] is the usage
    payload last captured, the terminal [Usage] event reports as total
    cost, as a number, [upstream_inference_cost] (0 when absent or [NaN])
    plus [cost] (0 when absent or [NaN]).  For a record without [NaN] that
    is the number [upstream_inference_cost] (0 when absent) plus [cost]
    (0 when absent), and the very same binary64 value when no field is the
    negative zero.  The record
    [{cost: 0.5, cost_details: {upstream_inference_cost: 0.2}}] is
    reported as 0.7. *)
Theorem usage_event_total_cost pre chunk post (u : Handler.CompletionUsage)
    (systemPrompt : string) (messages : list value) :
  Forall (fun c => Spec.stops c = false) (pre ++ chunk :: post) ->
  Wire.usage chunk = Some u ->
  Forall (fun c => Wire.usage c = None) post ->
  (exists texts inputTokens outputTokens cacheReadTokens reasoningTokens totalCost,
     Handler.yielded
       (createMessage
          (fun _ => Normal {| Wire.chunks := (pre ++ chunk :: post)%list;
                              Wire.failure := None |})
          systemPrompt messages)
     = (map Handler.Text texts
        ++ [Handler.Usage inputTokens outputTokens cacheReadTokens reasoningTokens
              totalCost])%list /\
     Spec.same_number totalCost (Spec.counted_cost u) = true /\
     (Spec.decoded_usage u ->
      Spec.same_number totalCost (Spec.stated_cost u) = true) /\
     (Spec.decoded_usage u -> Spec.unsigned_zero_usage u ->
      totalCost = Spec.stated_cost u)) /\
  Handler.yielded
    (createMessage
       (fun _ => Normal {| Wire.chunks :=
                             [Wire.of_chunk
                                (Examples.textChunk "A" (Some Examples.usage_with_cost))];
                           Wire.failure := None |})
       systemPrompt messages)
  = [Handler.Text "A"; Handler.Usage 0 0 None None 0.7%float].
Proof.
  intros Hs Hu Hpost. split.
  - destruct (createMessage_run {| Wire.chunks := (pre ++ chunk :: post)%list;
                                   Wire.failure := None |} systemPrompt messages)
      as [-> _].
    cbn [Wire.chunks Wire.failure].
    destruct (consume_events (pre ++ chunk :: post) None None) as (texts & -> & _).
    rewrite (consume_last_usage pre chunk post u None Hs Hu Hpost).
    exists texts. do 5 eexists. split; [reflexivity|].
    unfold Handler.getTotalCost, Spec.counted_cost, Spec.stated_cost.
    split; [|split].
    + apply CostFacts.add_zero_alike; apply CostFacts.or_zero_counted.
    + intros [Hc Hd]. apply CostFacts.add_zero_alike; now apply CostFacts.or_zero_alike.
    + intros [Hc Hd] [Hc' Hd']. now rewrite !CostFacts.or_zero_exact.
  - now destruct (createMessage_run
                    {| Wire.chunks :=
                         [Wire.of_chunk
                            (Examples.textChunk "A" (Some Examples.usage_with_cost))];
                       Wire.failure := None |} systemPrompt messages) as [-> _].
Qed.

(** X21. An answer without [choices] and without an error object: the
    single-shot path raises the TypeError of the unguarded read, as it is;
    the streaming path stops at that chunk, keeps the texts yielded before
    it, yields no usage, and raises an [Error] whose message is that of
    the TypeError behind [CometAPI Error: ].  An empty [choices] array is
    harmless to the single-shot path, which then returns the empty
    string. *)
Theorem answer_without_choices pre chunk rest failure response
    (systemPrompt : string) (messages : list value) (prompt : string) :
  Forall (fun c => Spec.stops c = false) pre ->
  Wire.error chunk = None -> Wire.choices chunk = None ->
  Wire.response_error response = None -> Wire.response_choices response = None ->
  (exists message texts,
     Handler.result (completePrompt (fun _ => Normal response) prompt)
     = Throw (TypeError message) /\
     Handler.yielded
       (createMessage
          (fun _ => Normal {| Wire.chunks := (pre ++ chunk :: rest)%list;
                              Wire.failure := failure |})
          systemPrompt messages)
     = map Handler.Text texts /\
     Spec.text_deltas pre texts /\
     Handler.finished
       (createMessage
          (fun _ => Normal {| Wire.chunks := (pre ++ chunk :: rest)%list;
                              Wire.failure := failure |})
          systemPrompt messages)
     = Throw (newError ("CometAPI Error: " ++ message))) /\
  (forall body, Wire.response_error body = None -> Wire.response_choices body = Some [] ->
     Handler.result (completePrompt (fun _ => Normal body) prompt) = Normal "").
Proof.
  intros Hpre He Hc Hre Hrc. split.
  - exists "Cannot read properties of undefined (reading '0')".
    destruct (createMessage_run {| Wire.chunks := (pre ++ chunk :: rest)%list;
                                   Wire.failure := failure |} systemPrompt messages)
      as [-> ->].
    cbn [Wire.chunks Wire.failure].
    destruct (consume_events (pre ++ chunk :: rest) failure None) as (texts & -> & Hd).
    rewrite (consume_without_choices pre chunk rest failure None Hpre He Hc).
    rewrite reached_app in Hd; [|exact Hpre|unfold Spec.stops; now rewrite He, Hc].
    exists texts. split; [|split; [now rewrite app_nil_r | split; [exact Hd | reflexivity]]].
    unfold Wire.completePrompt.
    destruct (HandlerFacts.fetchModel_returns cometApiModels cometApiDefaultModelId
                parseApiPrice fetch deriveMaxTokens options) as [m ->].
    simpl. rewrite Hre. unfold Wire.firstContent, Wire.read_body. now rewrite Hrc.
  - intros body Hbe Hbc. unfold Wire.completePrompt.
    destruct (HandlerFacts.fetchModel_returns cometApiModels cometApiDefaultModelId
                parseApiPrice fetch deriveMaxTokens options) as [m ->].
    simpl. rewrite Hbe. unfold Wire.firstContent, Wire.read_body. now rewrite Hbc.
Qed.

End Provider.

End WireFacts.

(* ===================================================================== *)
(** ** The properties at concrete inputs                                  *)
(* ===================================================================== *)

Module Witnesses.

Import JS.

Abbreviation resolve static fetch options :=
  (Fetcher.returned (Fetcher.getCometAPIModels static Examples.noPrices fetch options)).

Abbreviation generate stream :=
  (Handler.createMessage StaticClaude.cometApiModels StaticClaude.cometApiDefaultModelId
     Examples.noPrices Examples.offline Examples.untranslated Examples.noLimit
     Examples.noJSON (fun _ => Normal stream) Examples.keyed "system" []).

Abbreviation complete response :=
  (Handler.completePrompt StaticClaude.cometApiModels StaticClaude.cometApiDefaultModelId
     Examples.noPrices Examples.offline Examples.noLimit (fun _ => Normal response)
     Examples.keyed "prompt").

Abbreviation generate_wire stream :=
  (Wire.createMessage StaticClaude.cometApiModels StaticClaude.cometApiDefaultModelId
     Examples.noPrices Examples.offline Examples.untranslated Examples.noLimit
     Examples.noJSON (fun _ => Normal stream) Examples.keyed "system" []).

Abbreviation complete_wire response :=
  (Wire.completePrompt StaticClaude.cometApiModels StaticClaude.cometApiDefaultModelId
     Examples.noPrices Examples.offline Examples.noLimit (fun _ => Normal response)
     Examples.keyed "prompt").

Lemma filtered_dall_e_3 : Spec.filtered "dall-e-3".
Proof.
  right. exists "dall-e". split; [simpl; auto|]. exists "", "-3". reflexivity.
Defined.

Lemma filtered_tts_1 : Spec.filtered "tts-1".
Proof.
  left. exists "tts", "-1". split; [simpl; auto | reflexivity].
Defined.

Lemma filtered_mj_v6 : Spec.filtered "mj_v6".
Proof.
  left. exists "mj_", "v6". split; [simpl; auto | reflexivity].
Defined.

Lemma filtered_upper_case : Spec.filtered "Stable-Diffusion-XL".
Proof.
  right. exists "stable-diffusion". split; [simpl; auto 10|]. exists "", "-xl". reflexivity.
Defined.

(** C3 at a body without [data]. *)
Lemma resolver_never_raises_and_degrades_witness :
  Spec.malformed Examples.bodyWithoutData /\
  resolve StaticClaude.cometApiModels (Examples.answering Examples.bodyWithoutData)
    (Some Examples.keyed)
  = Normal StaticClaude.cometApiModels.
Proof.
  assert (Hm : Spec.malformed Examples.bodyWithoutData)
    by (apply Spec.data_missing; reflexivity).
  split; [exact Hm|].
  apply (proj2 (FetcherFacts.resolver_never_raises_and_degrades
                  StaticClaude.cometApiModels Examples.noPrices
                  (Examples.answering Examples.bodyWithoutData) (Some Examples.keyed))
               "test-key" eq_refl).
  right. eexists _, _. split; [reflexivity|]. split; [reflexivity | exact Hm].
Defined.

(** C4 at the listing that names [claude-3-5-sonnet-20241022] again. *)
Lemma merge_precedence_witness :
  exists merged,
    resolve StaticClaude.cometApiModels (Examples.answering Examples.listing)
      (Some Examples.keyed) = Normal merged /\
    merged !! "claude-3-5-sonnet-20241022"
    = Some (Fetcher.synthesize Examples.noPrices
              (Examples.parsedDescriptor "claude-3-5-sonnet-20241022")) /\
    is_Some (merged !! "claude-3-5-haiku-20241022").
Proof.
  destruct (FetcherFacts.merge_precedence StaticClaude.cometApiModels Examples.noPrices
              (Examples.answering Examples.listing) (Some Examples.keyed) "test-key"
              eq_refl ltac:(discriminate)) as [Hvalid _].
  destruct (Hvalid Examples.parsedListing) as (merged & Hr & Hstatic & Hremote).
  { eexists _, Examples.listing. repeat split. }
  exists merged. split; [exact Hr|]. split.
  - apply Hremote. reflexivity.
  - apply Hstatic. eexists. reflexivity.
Defined.

(** C5 at [dall-e-3], which the listing names. *)
Lemma media_filter_witness :
  exists models,
    resolve StaticClaude.cometApiModels (Examples.answering Examples.listing)
      (Some Examples.keyed) = Normal models /\
    models !! "dall-e-3" = None.
Proof.
  exact (proj1 (proj2 (FetcherFacts.media_filter "dall-e-3" Examples.noPrices
                         (Examples.answering Examples.listing) (Some Examples.keyed)
                         filtered_dall_e_3))).
Defined.

(** C6 at options without a key. *)
Lemma no_credential_static_witness :
  Spec.no_credential (Some Examples.unkeyed) /\
  resolve StaticComet.cometApiModels Examples.offline (Some Examples.unkeyed)
  = Normal StaticComet.cometApiModels /\
  Fetcher.requests
    (Fetcher.getCometAPIModels StaticComet.cometApiModels Examples.noPrices
       Examples.offline (Some Examples.unkeyed)) = [].
Proof.
  assert (H : Spec.no_credential (Some Examples.unkeyed)) by (left; reflexivity).
  split; [exact H|].
  exact (FetcherFacts.no_credential_static StaticComet.cometApiModels Examples.noPrices
           Examples.offline (Some Examples.unkeyed) H).
Defined.



(** C7, as stated, fails at [{cost: NaN}]: the event reports 0, while
    [upstream_inference_cost] (0 when absent) plus [cost] is [NaN]. *)
Lemma total_cost_nan_counterexample :
  Handler.yielded (generate_wire Examples.nanCostStream)
  = [Handler.Usage 0 0 None None 0%float] /\
  PrimFloat.is_nan (Spec.stated_cost Examples.usage_nan_cost) = true /\
  Spec.same_number 0%float (Spec.stated_cost Examples.usage_nan_cost) = false.
Proof.
  split; [|split; reflexivity].
  now destruct (WireFacts.createMessage_run StaticClaude.cometApiModels
                  StaticClaude.cometApiDefaultModelId Examples.noPrices Examples.offline
                  Examples.untranslated Examples.noLimit Examples.noJSON Examples.keyed
                  Examples.nanCostStream "system" []) as [-> _].
Qed.

(** C7 (amended) at a stream whose middle chunk has an empty delta and
    the usage of the example. *)
Lemma usage_event_total_cost_witness :
  (exists texts inputTokens outputTokens cacheReadTokens reasoningTokens totalCost,
     Handler.yielded (generate_wire Examples.emptyDeltaStream)
     = (map Handler.Text texts
        ++ [Handler.Usage inputTokens outputTokens cacheReadTokens reasoningTokens
              totalCost])%list /\
     Spec.same_number totalCost (Spec.counted_cost Examples.usage_with_cost) = true /\
     (Spec.decoded_usage Examples.usage_with_cost ->
      Spec.same_number totalCost (Spec.stated_cost Examples.usage_with_cost) = true) /\
     (Spec.decoded_usage Examples.usage_with_cost ->
      Spec.unsigned_zero_usage Examples.usage_with_cost ->
      totalCost = Spec.stated_cost Examples.usage_with_cost)) /\
  Handler.yielded
    (generate_wire
       {| Wire.chunks :=
            [Wire.of_chunk (Examples.textChunk "A" (Some Examples.usage_with_cost))];
          Wire.failure := None |})
  = [Handler.Text "A"; Handler.Usage 0 0 None None 0.7%float].
Proof.
  apply (WireFacts.usage_event_total_cost StaticClaude.cometApiModels
           StaticClaude.cometApiDefaultModelId Examples.noPrices Examples.offline
           Examples.untranslated Examples.noLimit Examples.noJSON Examples.keyed
           [Wire.of_chunk (Examples.textChunk "A" None)]
           (Wire.of_chunk (Examples.textChunk "" (Some Examples.usage_with_cost)))
           [Wire.of_chunk (Examples.textChunk "B" None)]
           Examples.usage_with_cost "system" []).
  - repeat constructor.
  - reflexivity.
  - repeat constructor.
Defined.

(** The same stream, run: the empty delta yields no [Text]. *)
Example empty_delta_is_skipped :
  Handler.yielded (generate_wire Examples.emptyDeltaStream)
  = [Handler.Text "A"; Handler.Text "B"; Handler.Usage 0 0 None None 0.7%float].
Proof.
  now destruct (WireFacts.createMessage_run StaticClaude.cometApiModels
                  StaticClaude.cometApiDefaultModelId Examples.noPrices Examples.offline
                  Examples.untranslated Examples.noLimit Examples.noJSON Examples.keyed
                  Examples.emptyDeltaStream "system" []) as [-> _].
Qed.

Example negative_zero_costs :
  let u := {| Handler.completion_tokens := None;
              Handler.completion_tokens_details := None;
              Handler.prompt_tokens := None;
              Handler.prompt_tokens_details := None;
              Handler.total_tokens := None;
              Handler.cost := Some PrimFloat.neg_zero;
              Handler.is_byok := None;
              Handler.cost_details :=
                Some {| Handler.upstream_inference_cost := Some PrimFloat.neg_zero |} |} in
  Handler.getTotalCost u = 0%float /\ Spec.stated_cost u = PrimFloat.neg_zero /\
  Spec.same_number (Handler.getTotalCost u) (Spec.stated_cost u) = true.
Proof. repeat split. Qed.



(** The handler's own tests, replayed. *)
Example generates_correct_stream_chunks :
  Handler.yielded (generate Examples.testStream)
  = [Handler.Text "test response"; Handler.Usage 10 20 None None 0%float].
Proof. reflexivity. Qed.

Example unparsable_payload_is_swallowed :
  Handler.makeCometAPIErrorReadable Examples.noJSON
    (Examples.rateLimit (VStr "not json"))
  = Normal ("Rate limit exceeded, try again later." ++ Str.LF ++ "Too Many Requests").
Proof. reflexivity. Qed.

Example transport_error_is_prefixed :
  Handler.finished
    (generate {| Handler.chunks := [Examples.textChunk "partial" None];
                 Handler.failure := Some (newError "socket hang up") |})
  = Throw (newError "CometAPI Error: socket hang up").
Proof. reflexivity. Qed.

Example positive_limit_is_sent_on_both_paths :
  map Handler.max_tokens
    (Handler.gen_calls
       (Handler.createMessage StaticClaude.cometApiModels
          StaticClaude.cometApiDefaultModelId Examples.noPrices Examples.offline
          Examples.untranslated (fun _ _ _ => Some 8192) Examples.noJSON
          (fun _ => Normal Examples.testStream) Examples.keyed "system" []))
  = [Some 8192] /\
  map Handler.max_tokens
    (Handler.calls
       (Handler.completePrompt StaticClaude.cometApiModels
          StaticClaude.cometApiDefaultModelId Examples.noPrices Examples.offline
          (fun _ _ _ => Some 8192)
          (fun _ => Normal (Examples.errorBody Examples.apiError500))
          Examples.keyed "prompt"))
  = [Some 8192].
Proof. split; reflexivity. Qed.

Example remote_listing_resolved :
  exists merged,
    resolve StaticClaude.cometApiModels (Examples.answering Examples.listing)
      (Some Examples.keyed) = Normal merged /\
    dom merged = {[ "claude-3-5-sonnet-20241022"; "claude-3-5-haiku-20241022"; "gpt-4o" ]}.
Proof.
  eexists. split; [reflexivity|]. now vm_compute.
Qed.

End Witnesses.

(* ===================================================================== *)
(** ** The catalog resolver: further properties                           *)
(* ===================================================================== *)

Module FetcherExtras.

Import JS.

(** [toLowerCase] is idempotent. *)
Lemma lower_char_idempotent (c : ascii) : Str.lower_char (Str.lower_char c) = Str.lower_char c.
Proof. destruct c as [[] [] [] [] [] [] [] []]; reflexivity. Qed.

Lemma toLowerCase_idempotent (s : string) :
  Str.toLowerCase (Str.toLowerCase s) = Str.toLowerCase s.
Proof.
  induction s as [|c s IH]; [reflexivity|].
  cbn [Str.toLowerCase]. now rewrite lower_char_idempotent, IH.
Qed.

Lemma text_not_filtered (modelId : string) :
  Fetcher.isTextGenerationModel modelId = false -> Spec.filtered modelId.
Proof.
  unfold Fetcher.isTextGenerationModel, Str.some. intros H.
  apply andb_false_iff in H as [H | H]; apply negb_false_iff, existsb_exists in H;
    destruct H as (p & Hin & Hp).
  - left. apply StrFacts.startsWith_iff in Hp as [rest Hrest]. now exists p, rest.
  - right. exists p. split; [exact Hin|]. now apply StrFacts.includes_iff.
Qed.

(** X1. The media-type filter rejects an identifier exactly when its
    lower-cased form starts with [tts], [mj_], [veo], [runway], [suno] or
    [kling_], or contains [dall-e], [dalle], [midjourney],
    [stable-diffusion], [sd-], [flux-], [playground-v], [ideogram],
    [recraft] or [black-forest-labs]; every other identifier is kept. *)
Theorem filter_exact (modelId : string) :
  Fetcher.isTextGenerationModel modelId = false <-> Spec.names_media modelId.
Proof.
  change (Spec.names_media modelId) with (Spec.filtered modelId).
  split; [apply FetcherExtras.text_not_filtered | apply FetcherFacts.filtered_not_text].
Qed.

(** The context window and the image flag read the identifier through
    [toLowerCase] only. *)
Lemma synthesize_capabilities parseApiPrice (a b : Fetcher.cometApiModel) :
  Str.toLowerCase (Fetcher.id a) = Str.toLowerCase (Fetcher.id b) ->
  Types.contextWindow (Fetcher.synthesize parseApiPrice a)
  = Types.contextWindow (Fetcher.synthesize parseApiPrice b) /\
  Types.supportsImages (Fetcher.synthesize parseApiPrice a)
  = Types.supportsImages (Fetcher.synthesize parseApiPrice b).
Proof.
  intros H. unfold Fetcher.synthesize. rewrite H.
  repeat match goal with
         | |- context [if Str.includes ?s ?p then _ else _] =>
             destruct (Str.includes s p); cbn [Types.contextWindow Types.supportsImages]
         end; split; reflexivity.
Qed.

(** X2. Letter case does not matter to the classification: identifiers
    that agree once lower-cased are filtered alike and are given the same
    context window and image support. *)
Theorem classification_ignores_case parseApiPrice (a b : Fetcher.cometApiModel) :
  Str.toLowerCase (Fetcher.id a) = Str.toLowerCase (Fetcher.id b) ->
  Fetcher.isTextGenerationModel (Fetcher.id a)
  = Fetcher.isTextGenerationModel (Fetcher.id b) /\
  Types.contextWindow (Fetcher.synthesize parseApiPrice a)
  = Types.contextWindow (Fetcher.synthesize parseApiPrice b) /\
  Types.supportsImages (Fetcher.synthesize parseApiPrice a)
  = Types.supportsImages (Fetcher.synthesize parseApiPrice b).
Proof.
  intros H. split; [|now apply synthesize_capabilities].
  unfold Fetcher.isTextGenerationModel. now rewrite H.
Qed.

(** Every synthesized entry is well formed. *)
Lemma synthesize_shape parseApiPrice (model : Fetcher.cometApiModel) :
  8192 <= Types.contextWindow (Fetcher.synthesize parseApiPrice model) /\
  Types.supportsPromptCache (Fetcher.synthesize parseApiPrice model) = false /\
  Types.maxTokens (Fetcher.synthesize parseApiPrice model) = None.
Proof.
  unfold Fetcher.synthesize.
  repeat match goal with
         | |- context [Str.includes ?s ?p] =>
             destruct (Str.includes s p);
             cbn [Types.contextWindow Types.supportsPromptCache Types.maxTokens orb]
         end; (split; [lia | split; reflexivity]).
Qed.

Lemma remote_entry_None_iff descriptors k :
  Spec.remote_entry descriptors k = None <->
  forall d, In d descriptors -> Fetcher.id d = k ->
            Fetcher.isTextGenerationModel (Fetcher.id d) = false.
Proof.
  induction descriptors as [|d0 rest IH]; simpl.
  - split; [intros _ d [] | reflexivity].
  - destruct (Spec.remote_entry rest k) as [later|] eqn:E.
    + split; [discriminate|]. intros H. exfalso.
      apply FetcherFacts.remote_entry_sound in E as (Hin & Hid & Ht).
      rewrite (H later (or_intror Hin) Hid) in Ht. discriminate.
    + destruct IH as [IH _]. specialize (IH eq_refl).
      destruct (Fetcher.isTextGenerationModel (Fetcher.id d0)) eqn:Ht; simpl.
      * destruct (String.eqb_spec (Fetcher.id d0) k) as [Hk|Hk].
        -- split; [discriminate|]. intros H.
           rewrite (H d0 (or_introl eq_refl) Hk) in Ht. discriminate.
        -- split; [|reflexivity]. intros _ d [<- | Hin] Hid; [contradiction | now apply IH].
      * split; [|reflexivity]. intros _ d [<- | Hin] Hid; [exact Ht | now apply IH].
Qed.

Lemma remote_entry_last before d after :
  Fetcher.isTextGenerationModel (Fetcher.id d) = true ->
  Forall (fun later => Fetcher.id later <> Fetcher.id d) after ->
  Spec.remote_entry (before ++ d :: after) (Fetcher.id d) = Some d.
Proof.
  intros Ht Hafter.
  assert (Hnone : Spec.remote_entry after (Fetcher.id d) = None).
  { apply remote_entry_None_iff. intros d' Hin Hid.
    rewrite Forall_forall in Hafter. now destruct (Hafter d' (proj2 (list_elem_of_In _ _) Hin)). }
  induction before as [|b before IH]; simpl.
  - now rewrite Hnone, Ht, String.eqb_refl.
  - now rewrite IH.
Qed.

Section Resolver.

Variable cometApiModels : gmap string Types.ModelInfo.
Variable parseApiPrice : Fetcher.nullish string -> option float.
Variable fetch : Fetcher.Request -> JS.completion Fetcher.Response.

Abbreviation synthesize := (Fetcher.synthesize parseApiPrice).
Abbreviation getCometAPIModels := (Fetcher.getCometAPIModels cometApiModels parseApiPrice fetch).
Abbreviation answer options apiKey :=
  (fetch (Fetcher.modelsRequest (Fetcher.baseURL_of options) apiKey)).

(** What a validated fetch resolves to. *)
Lemma resolved_validated options apiKey parsed :
  Fetcher.apiKey_of options = Some apiKey -> apiKey <> "" ->
  Spec.validated (answer options apiKey) parsed ->
  Fetcher.returned (getCometAPIModels options)
  = Normal (Fetcher.collect parseApiPrice (Fetcher.data parsed) ∪ cometApiModels).
Proof.
  intros Hk Hne Hv.
  rewrite (FetcherFacts.resolver_with_key _ _ _ _ _ Hk Hne). simpl.
  now rewrite (FetcherFacts.tryBlock_validated _ _ _ _ _ _ Hv).
Qed.

Lemma resolved_degraded options apiKey :
  Fetcher.apiKey_of options = Some apiKey -> apiKey <> "" ->
  Spec.degraded (answer options apiKey) ->
  Fetcher.returned (getCometAPIModels options) = Normal cometApiModels.
Proof.
  intros Hk Hne Hd.
  rewrite (FetcherFacts.resolver_with_key _ _ _ _ _ Hk Hne). simpl.
  now apply FetcherFacts.tryBlock_degraded.
Qed.

(** X4. After a validated fetch, an identifier that no surviving remote
    descriptor carries resolves exactly as in the static table: static
    entries that are not overlaid keep their values, and no other key
    appears. *)
Theorem unlisted_keys_keep_static options apiKey parsed k :
  Fetcher.apiKey_of options = Some apiKey -> apiKey <> "" ->
  Spec.validated (answer options apiKey) parsed ->
  (forall d, In d (Fetcher.data parsed) -> Fetcher.id d = k ->
             Fetcher.isTextGenerationModel (Fetcher.id d) = false) ->
  exists merged,
    Fetcher.returned (getCometAPIModels options) = Normal merged /\
    merged !! k = cometApiModels !! k.
Proof.
  intros Hk Hne Hv Hnone.
  rewrite (resolved_validated _ _ _ Hk Hne Hv). eexists. split; [reflexivity|].
  apply remote_entry_None_iff in Hnone.
  rewrite lookup_union, FetcherFacts.collect_lookup, Hnone. simpl.
  now destruct (cometApiModels !! k).
Qed.

(** X5. After a validated fetch, every identifier the remote lists and
    the filter keeps resolves to an entry without [maxTokens] and without
    prompt caching, whatever the static table says about it. *)
Theorem overlay_drops_static_limits options apiKey parsed d :
  Fetcher.apiKey_of options = Some apiKey -> apiKey <> "" ->
  Spec.validated (answer options apiKey) parsed ->
  In d (Fetcher.data parsed) ->
  Fetcher.isTextGenerationModel (Fetcher.id d) = true ->
  exists merged info,
    Fetcher.returned (getCometAPIModels options) = Normal merged /\
    merged !! Fetcher.id d = Some info /\
    Types.maxTokens info = None /\
    Types.supportsPromptCache info = false /\
    8192 <= Types.contextWindow info.
Proof.
  intros Hk Hne Hv Hin Ht.
  rewrite (resolved_validated _ _ _ Hk Hne Hv).
  destruct (Spec.remote_entry (Fetcher.data parsed) (Fetcher.id d)) as [last|] eqn:E.
  - exists (Fetcher.collect parseApiPrice (Fetcher.data parsed) ∪ cometApiModels),
           (synthesize last).
    split; [reflexivity|]. split.
    + apply lookup_union_Some_l. now rewrite FetcherFacts.collect_lookup, E.
    + destruct (synthesize_shape parseApiPrice last) as (? & ? & ?). auto.
  - exfalso. rewrite remote_entry_None_iff in E.
    rewrite (E d Hin eq_refl) in Ht. discriminate.
Qed.

(** X8. A validated listing in which every descriptor is filtered out, an
    empty listing in particular, resolves to exactly the static table. *)
Theorem filtered_listing_gives_static options apiKey parsed :
  Fetcher.apiKey_of options = Some apiKey -> apiKey <> "" ->
  Spec.validated (answer options apiKey) parsed ->
  Forall (fun d => Fetcher.isTextGenerationModel (Fetcher.id d) = false)
         (Fetcher.data parsed) ->
  Fetcher.returned (getCometAPIModels options) = Normal cometApiModels.
Proof.
  intros Hk Hne Hv Hall.
  rewrite (resolved_validated _ _ _ Hk Hne Hv). f_equal.
  assert (Hempty : Fetcher.collect parseApiPrice (Fetcher.data parsed) = ∅).
  { apply map_eq. intros k. rewrite FetcherFacts.collect_lookup, lookup_empty.
    assert (Hn : Spec.remote_entry (Fetcher.data parsed) k = None).
    { apply remote_entry_None_iff. intros d Hin _.
      rewrite Forall_forall in Hall. apply Hall. now apply list_elem_of_In. }
    now rewrite Hn. }
  rewrite Hempty. apply (left_id ∅ (∪)).
Qed.

(** X10. When the remote lists an identifier more than once, the last
    listed descriptor decides the resolved entry. *)
Theorem last_listed_descriptor_wins options apiKey parsed before d after :
  Fetcher.apiKey_of options = Some apiKey -> apiKey <> "" ->
  Spec.validated (answer options apiKey) parsed ->
  Fetcher.data parsed = (before ++ d :: after)%list ->
  Fetcher.isTextGenerationModel (Fetcher.id d) = true ->
  Forall (fun later => Fetcher.id later <> Fetcher.id d) after ->
  exists merged,
    Fetcher.returned (getCometAPIModels options) = Normal merged /\
    merged !! Fetcher.id d = Some (synthesize d).
Proof.
  intros Hk Hne Hv Hdata Ht Hafter.
  rewrite (resolved_validated _ _ _ Hk Hne Hv). eexists. split; [reflexivity|].
  apply lookup_union_Some_l.
  now rewrite FetcherFacts.collect_lookup, Hdata, (remote_entry_last _ _ _ Ht Hafter).
Qed.

(** Entries satisfying [P] in the static table and in every synthesized
    entry are all the resolver ever returns. *)
Lemma resolved_entries (P : Types.ModelInfo -> Prop) options :
  (forall k info, cometApiModels !! k = Some info -> P info) ->
  (forall d, P (synthesize d)) ->
  exists models,
    Fetcher.returned (getCometAPIModels options) = Normal models /\
    forall k info, models !! k = Some info -> P info.
Proof.
  intros Hstatic Hsynth.
  destruct (FetcherFacts.resolver_returns cometApiModels parseApiPrice fetch options)
    as (models & Hr & [-> | (ds & ->)]); eexists; (split; [exact Hr|]).
  - exact Hstatic.
  - intros k info H. apply lookup_union_Some_raw in H as [H | [_ H]].
    + rewrite FetcherFacts.collect_lookup in H.
      destruct (Spec.remote_entry ds k); [|discriminate].
      injection H as <-. apply Hsynth.
    + now apply (Hstatic k).
Qed.

(** One descriptor the schema refuses makes the whole body invalid. *)
Lemma bad_descriptor_degrades options apiKey r c fields items item :
  answer options apiKey = Normal r ->
  Fetcher.json r = Normal (VObj c fields) ->
  lookup_field "data" fields = Some (VArr items) ->
  In item items ->
  Fetcher.cometApiModelSchema item = None ->
  Spec.degraded (answer options apiKey).
Proof.
  intros Ha Hj Hd Hin Hbad.
  destruct (Fetcher.ok r) eqn:Hok; [|exact (Spec.status_not_ok _ r Ha Hok)].
  apply (Spec.body_invalid _ r (VObj c fields) Ha Hok Hj).
  unfold Fetcher.cometApiModelsResponseSchema, Fetcher.z_object. simpl. rewrite Hd. simpl.
  rewrite mapM_None_2; [reflexivity|].
  apply Exists_exists. exists item. split; [now apply list_elem_of_In | exact Hbad].
Qed.

End Resolver.

Lemma static_claude_shape k info :
  StaticClaude.cometApiModels !! k = Some info ->
  0 < Types.contextWindow info /\ Types.supportsPromptCache info = false.
Proof.
  unfold StaticClaude.cometApiModels. intros H.
  apply lookup_insert_Some in H as [[_ <-] | [_ H]]; [split; reflexivity|].
  apply lookup_insert_Some in H as [[_ <-] | [_ H]]; [split; reflexivity|].
  now rewrite lookup_empty in H.
Qed.

Lemma static_comet_shape k info :
  StaticComet.cometApiModels !! k = Some info ->
  0 < Types.contextWindow info /\ Types.supportsPromptCache info = false.
Proof.
  unfold StaticComet.cometApiModels. intros H.
  apply lookup_insert_Some in H as [[_ <-] | [_ H]]; [split; reflexivity|].
  now rewrite lookup_empty in H.
Qed.

(** X3. With either static table, and whatever the remote answers, every
    entry of the resolved catalog has a positive context window and no
    prompt caching. *)
Theorem resolved_entries_well_formed
    (parseApiPrice : Fetcher.nullish string -> option float)
    (fetch : Fetcher.Request -> JS.completion Fetcher.Response)
    (options : option Types.ApiHandlerOptions) :
  (exists models,
     Fetcher.returned
       (Fetcher.getCometAPIModels StaticClaude.cometApiModels parseApiPrice fetch options)
     = Normal models /\
     forall k info, models !! k = Some info ->
       0 < Types.contextWindow info /\ Types.supportsPromptCache info = false) /\
  (exists models,
     Fetcher.returned
       (Fetcher.getCometAPIModels StaticComet.cometApiModels parseApiPrice fetch options)
     = Normal models /\
     forall k info, models !! k = Some info ->
       0 < Types.contextWindow info /\ Types.supportsPromptCache info = false).
Proof.
  split; apply resolved_entries;
    try (intros d; destruct (synthesize_shape parseApiPrice d) as (? & ? & _);
         split; [lia | assumption]).
  - apply static_claude_shape.
  - apply static_comet_shape.
Qed.

(** A field validated by [.optional()] refuses [null]. *)
Lemma null_optional_invalid (item : value) (key : string) :
  In key Spec.optional_fields -> get item key = VNull ->
  Fetcher.cometApiModelSchema item = None.
Proof.
  intros Hkey Hnull. unfold Fetcher.cometApiModelSchema, Fetcher.z_object.
  destruct item; try reflexivity.
  set (field := get (VObj c fields)) in *.
  destruct (Fetcher.z_string (field "id")); [|reflexivity]. simpl.
  repeat (destruct Hkey as [<- | Hkey];
          [rewrite Hnull; simpl;
           repeat match goal with
                  | |- context [Fetcher.z_optional ?p ?v] =>
                      destruct (Fetcher.z_optional p v); simpl
                  end; reflexivity|]).
  destruct Hkey.
Qed.

(** X6. Validation is all or nothing: if a single descriptor of the
    listing has one of its optional fields set to [null], the resolver
    discards the whole remote listing and returns the static table. *)
Theorem one_null_field_discards_listing
    (cometApiModels : gmap string Types.ModelInfo)
    (parseApiPrice : Fetcher.nullish string -> option float)
    (fetch : Fetcher.Request -> JS.completion Fetcher.Response)
    options apiKey r c fields items item key :
  Fetcher.apiKey_of options = Some apiKey -> apiKey <> "" ->
  fetch (Fetcher.modelsRequest (Fetcher.baseURL_of options) apiKey) = Normal r ->
  Fetcher.json r = Normal (VObj c fields) ->
  lookup_field "data" fields = Some (VArr items) ->
  In item items ->
  In key Spec.optional_fields -> get item key = VNull ->
  Fetcher.returned (Fetcher.getCometAPIModels cometApiModels parseApiPrice fetch options)
  = Normal cometApiModels.
Proof.
  intros Hk Hne Ha Hj Hd Hin Hkey Hnull.
  apply (resolved_degraded _ _ _ _ _ Hk Hne).
  eapply bad_descriptor_degrades; eauto using null_optional_invalid.
Qed.

Lemma lookup_field_skip key k v pre post :
  key <> k ->
  lookup_field key (pre ++ (k, v) :: post) = lookup_field key (pre ++ post).
Proof.
  intros Hne. induction pre as [|[k0 v0] pre IH]; simpl.
  - destruct (String.eqb_spec key k); [contradiction | reflexivity].
  - now rewrite IH.
Qed.

(** X7. Fields the descriptor schema does not name are ignored: adding
    one to a descriptor object changes nothing in what validation
    answers. *)
Theorem unknown_field_is_ignored (c : class) (pre post : list (string * value))
    (k : string) (v : value) :
  ~ In k Spec.descriptor_fields ->
  Fetcher.cometApiModelSchema (VObj c (pre ++ (k, v) :: post))
  = Fetcher.cometApiModelSchema (VObj c (pre ++ post)).
Proof.
  intros Hk.
  assert (Hget : forall key, In key Spec.descriptor_fields ->
                 get (VObj c (pre ++ (k, v) :: post)) key = get (VObj c (pre ++ post)) key).
  { intros key Hin. unfold get. rewrite lookup_field_skip; [reflexivity|].
    intros ->. contradiction. }
  unfold Fetcher.cometApiModelSchema, Fetcher.z_object.
  rewrite !Hget by (unfold Spec.descriptor_fields, Spec.optional_fields; simpl; auto 20).
  reflexivity.
Qed.

Lemma not_contains_includes (s marker : string) :
  ~ Spec.contains s marker -> Str.includes s marker = false.
Proof.
  intros H. destruct (Str.includes s marker) eqn:E; [|reflexivity].
  now apply StrFacts.includes_iff in E.
Qed.

(** X20. An identifier of no recognised family, and likewise one that
    names Claude without one of the recognised versions, is given the
    defaults: a context window of 8192, no image support, and the
    identifier itself, as listed, for description. *)
Theorem unrecognised_identifier_gets_defaults parseApiPrice (model : Fetcher.cometApiModel) :
  let modelId := Str.toLowerCase (Fetcher.id model) in
  Forall (fun marker => ~ Spec.contains modelId marker) Spec.family_markers \/
  (Spec.contains modelId "claude" /\
   Forall (fun version => ~ Spec.contains modelId version) Spec.claude_versions) ->
  Fetcher.synthesize parseApiPrice model
  = {| Types.maxTokens := None;
       Types.contextWindow := 8192;
       Types.supportsImages := false;
       Types.supportsPromptCache := false;
       Types.inputPrice := parseApiPrice (Fetcher.pricing_prompt model);
       Types.outputPrice := parseApiPrice (Fetcher.pricing_completion model);
       Types.description := Fetcher.id model |}.
Proof.
  intros modelId H. unfold Spec.family_markers, Spec.claude_versions in H.
  destruct H as [Hnone | [Hclaude Hversions]]; unfold Fetcher.synthesize; fold modelId.
  - repeat match goal with
           | H : Forall _ (_ :: _) |- _ =>
               apply Forall_cons in H as [?%not_contains_includes H]
           end.
    repeat match goal with H : Str.includes _ _ = false |- _ => rewrite H; clear H end.
    reflexivity.
  - apply StrFacts.includes_iff in Hclaude. rewrite Hclaude.
    repeat match goal with
           | H : Forall _ (_ :: _) |- _ =>
               apply Forall_cons in H as [?%not_contains_includes H]
           end.
    repeat match goal with H : Str.includes _ _ = false |- _ => rewrite H; clear H end.
    reflexivity.
Qed.

(** X9. The resolver issues at most one request, and it agrees with the
    client the constructor configures: the request goes to the client's
    base URL followed by [/models], as a GET carrying the client's API key
    as bearer token, with a 10000 ms timeout. *)
Theorem resolver_request_matches_client
    (DEFAULT_HEADERS : list (string * string))
    (cometApiModels : gmap string Types.ModelInfo)
    (parseApiPrice : Fetcher.nullish string -> option float)
    (fetch : Fetcher.Request -> JS.completion Fetcher.Response)
    (options : Types.ApiHandlerOptions) (request : Fetcher.Request) :
  In request
     (Fetcher.requests
        (Fetcher.getCometAPIModels cometApiModels parseApiPrice fetch (Some options))) ->
  let client := Construction.constructor DEFAULT_HEADERS options in
  Fetcher.requests
    (Fetcher.getCometAPIModels cometApiModels parseApiPrice fetch (Some options))
  = [request] /\
  Fetcher.url request = Construction.baseURL client ++ "/models" /\
  Fetcher.method request = "GET" /\
  Fetcher.headers request
  = [("Authorization", "Bearer " ++ Construction.apiKey client);
     ("Content-Type", "application/json")] /\
  Fetcher.timeout request = 10000.
Proof.
  unfold Fetcher.getCometAPIModels, Construction.constructor. simpl.
  destruct (Types.cometApiKey options) as [k|]; [|intros []].
  destruct (String.eqb k ""); [intros []|].
  intros [<- | []]. repeat split.
Qed.

End FetcherExtras.

(* ===================================================================== *)
(** ** The completion handler: further properties                         *)
(* ===================================================================== *)

Module HandlerExtras.

Import JS.

Lemma before_error_all chunks :
  Forall (fun chunk => Handler.error chunk = None) chunks ->
  Spec.before_error chunks = chunks /\ Spec.first_error chunks = None.
Proof.
  induction 1 as [|chunk rest Hc _ [IH1 IH2]]; simpl; [auto|].
  now rewrite Hc, IH1, IH2.
Qed.

Lemma latest_usage_app pre chunk post u :
  Handler.usage chunk = Some u ->
  Forall (fun later => Handler.usage later = None) post ->
  Spec.latest_usage (pre ++ chunk :: post) = Some u.
Proof.
  intros Hu Hpost. induction pre as [|p pre IH]; simpl.
  - now rewrite (HandlerFacts.latest_usage_none _ Hpost).
  - now rewrite IH.
Qed.

Lemma texts_nonempty chunks t : In t (Spec.texts chunks) -> t <> "".
Proof.
  unfold Spec.texts. intros H. apply list_elem_of_In, list_elem_of_omap in H
    as (chunk & _ & H).
  now apply HandlerFacts.deltaText_iff in H as [H _].
Qed.

Lemma texts_length chunks : (length (Spec.texts chunks) <= length chunks)%nat.
Proof.
  unfold Spec.texts. induction chunks as [|chunk rest IH]; simpl; [lia|].
  change (list_omap _ _ Handler.deltaText rest) with (omap Handler.deltaText rest).
  destruct (Handler.deltaText chunk); simpl; lia.
Qed.

Lemma before_error_length chunks :
  (length (Spec.before_error chunks) <= length chunks)%nat.
Proof.
  induction chunks as [|chunk rest IH]; simpl; [lia|].
  destruct (Handler.error chunk); simpl; lia.
Qed.



(** X18. For a rate-limited error whose raw payload parses, one [null]
    (or missing) entry in [error.details] is enough to lose the retry
    delay: the generic message is produced even if another entry names a
    delay. *)
Theorem null_detail_loses_retry_delay JSON_parse (error parsed : value)
    (details : list value) (entry : value) :
  Spec.rate_limited error ->
  JSON_parse (ToString (optGet (get (get error "error") "metadata") "raw"))
    = Some parsed ->
  get (optGet parsed "error") "details" = VArr details ->
  In entry details -> is_nullish entry = true ->
  Handler.makeCometAPIErrorReadable JSON_parse error
  = Normal ("Rate limit exceeded, try again later." ++ Str.LF
            ++ Spec.original_message error).
Proof.
  intros Hr Hparse Hdetails Hin Hnull.
  apply HandlerFacts.readable_generic; [exact Hr|].
  intros delay (parsed' & details' & _ & Hparse' & _ & Hdetails' & Hall & _).
  rewrite Hparse in Hparse'. injection Hparse' as <-.
  rewrite Hdetails in Hdetails'. injection Hdetails' as <-.
  rewrite Forall_forall in Hall.
  destruct (Hall entry (proj2 (list_elem_of_In _ _) Hin)) as [H1 H2].
  destruct entry; try discriminate; contradiction.
Qed.

Section Provider.

Variable cometApiModels : gmap string Types.ModelInfo.
Variable cometApiDefaultModelId : string.
Variable parseApiPrice : Fetcher.nullish string -> option float.
Variable fetch : Fetcher.Request -> completion Fetcher.Response.
Variable convertToOpenAiMessages : list value -> list value.
Variable deriveMaxTokens :
  string -> option Types.ModelInfo -> Types.ApiHandlerOptions -> option Z.
Variable JSON_parse : string -> option value.
Variable options : Types.ApiHandlerOptions.

Abbreviation fetchModel :=
  (Handler.fetchModel cometApiModels cometApiDefaultModelId parseApiPrice fetch
     deriveMaxTokens options).
Abbreviation createMessage create_stream :=
  (Handler.createMessage cometApiModels cometApiDefaultModelId parseApiPrice fetch
     convertToOpenAiMessages deriveMaxTokens JSON_parse create_stream options).
Abbreviation completePrompt create_completion :=
  (Handler.completePrompt cometApiModels cometApiDefaultModelId parseApiPrice fetch
     deriveMaxTokens create_completion options).
Abbreviation over stream := (createMessage (fun _ => Normal stream)).


(** X12. When the transport fails in mid-stream with an error that is not
    a rate limit, every text that arrived before the failure has been
    yielded, and the error raised reads [CometAPI Error: ] followed by the
    original message. *)
Theorem transport_failure_keeps_texts chunks e systemPrompt messages :
  Forall (fun chunk => Handler.error chunk = None) chunks ->
  ~ Spec.rate_limited e ->
  let run := over {| Handler.chunks := chunks; Handler.failure := Some e |}
                  systemPrompt messages in
  Handler.yielded run = map Handler.Text (Spec.texts chunks) /\
  Handler.finished run
  = Throw (newError ("CometAPI Error: " ++ Spec.original_message e)).
Proof.
  intros Hclean Hr run. subst run.
  destruct (HandlerFacts.createMessage_over cometApiModels cometApiDefaultModelId
              parseApiPrice fetch convertToOpenAiMessages deriveMaxTokens JSON_parse
              options {| Handler.chunks := chunks; Handler.failure := Some e |}
              systemPrompt messages) as [Hy Hf].
  cbv zeta in Hy, Hf. rewrite Hy, Hf. cbn [Handler.chunks Handler.failure].
  destruct (before_error_all _ Hclean) as [-> ->].
  rewrite (HandlerFacts.readable_other JSON_parse e Hr). simpl.
  split; [apply app_nil_r | reflexivity].
Qed.

(** X13. When the client rejects the request itself, the rejection
    reaches the caller unchanged on both paths (it does not pass through
    the readable-message transform), nothing is yielded, and the client
    has been called exactly once. *)
Theorem request_rejection_propagates (e : value) systemPrompt messages prompt :
  Handler.finished (createMessage (fun _ => Throw e) systemPrompt messages) = Throw e /\
  Handler.yielded (createMessage (fun _ => Throw e) systemPrompt messages) = [] /\
  length (Handler.gen_calls (createMessage (fun _ => Throw e) systemPrompt messages)) = 1%nat /\
  Handler.result (completePrompt (fun _ => Throw e) prompt) = Throw e /\
  length (Handler.calls (completePrompt (fun _ => Throw e) prompt)) = 1%nat.
Proof.
  unfold Handler.createMessage, Handler.completePrompt.
  destruct (HandlerFacts.fetchModel_returns cometApiModels cometApiDefaultModelId
              parseApiPrice fetch deriveMaxTokens options) as [m ->].
  repeat split.
Qed.

(** X14. When several chunks carry a usage payload and the stream ends
    normally, the one [Usage] event is computed from the last of them, and
    it comes after every [Text]. *)
Theorem latest_usage_wins pre chunk post u systemPrompt messages :
  Forall (fun c => Handler.error c = None) (pre ++ chunk :: post) ->
  Handler.usage chunk = Some u ->
  Forall (fun later => Handler.usage later = None) post ->
  let run := over {| Handler.chunks := (pre ++ chunk :: post)%list;
                     Handler.failure := None |} systemPrompt messages in
  Handler.yielded run
  = (map Handler.Text (Spec.texts (pre ++ chunk :: post)) ++ [Handler.usageChunk u])%list /\
  Handler.finished run = Normal tt.
Proof.
  intros Hclean Hu Hpost run. subst run.
  destruct (HandlerFacts.createMessage_over cometApiModels cometApiDefaultModelId
              parseApiPrice fetch convertToOpenAiMessages deriveMaxTokens JSON_parse
              options {| Handler.chunks := (pre ++ chunk :: post)%list;
                         Handler.failure := None |}
              systemPrompt messages) as [Hy Hf].
  cbv zeta in Hy, Hf. rewrite Hy, Hf. cbn [Handler.chunks Handler.failure].
  destruct (before_error_all _ Hclean) as [-> ->].
  now rewrite (latest_usage_app _ _ _ _ Hu Hpost).
Qed.

(** X15. Whatever the stream, no yielded [Text] is empty, and the run
    yields at most one event per chunk plus one. *)
Theorem yielded_events_bounded (stream : Handler.Stream) systemPrompt messages :
  (forall text, In (Handler.Text text)
                   (Handler.yielded (over stream systemPrompt messages)) ->
                text <> "") /\
  (length (Handler.yielded (over stream systemPrompt messages))
   <= length (Handler.chunks stream) + 1)%nat.
Proof.
  destruct (HandlerFacts.createMessage_over cometApiModels cometApiDefaultModelId
              parseApiPrice fetch convertToOpenAiMessages deriveMaxTokens JSON_parse
              options stream systemPrompt messages) as [Hy _].
  cbv zeta in Hy. rewrite Hy. split.
  - intros text Hin. apply in_app_or in Hin as [Hin | Hin].
    + apply in_map_iff in Hin as (t & [= ->] & Hin). eapply texts_nonempty, Hin.
    + destruct (Spec.first_error _); [destruct Hin|].
      destruct (Handler.failure stream); [destruct Hin|].
      destruct (Spec.latest_usage _); [|destruct Hin].
      destruct Hin as [Hin | []]. discriminate.
  - rewrite length_app, length_map.
    pose proof (texts_length (Spec.before_error (Handler.chunks stream))).
    pose proof (before_error_length (Handler.chunks stream)).
    assert (length match Spec.first_error (Handler.chunks stream),
                         Handler.failure stream with
                   | None, None =>
                       match Spec.latest_usage (Handler.chunks stream) with
                       | Some u => [Handler.usageChunk u]
                       | None => []
                       end
                   | _, _ => []
                   end <= 1)%nat.
    { destruct (Spec.first_error _); [simpl; lia|].
      destruct (Handler.failure stream); [simpl; lia|].
      destruct (Spec.latest_usage _); simpl; lia. }
    lia.
Qed.

(** X23. The presence of an [error] key alone aborts the stream: when the
    value under it carries neither code nor message ([null], an empty
    object, ...), the run still stops there, the text of that very chunk
    is not yielded, and the error raised spells both as [undefined]. *)
Theorem empty_error_field_aborts pre errChunk rest failure err systemPrompt messages :
  Forall (fun chunk => Handler.error chunk = None) pre ->
  Handler.error errChunk = Some err ->
  optGet err "code" = VUndefined -> optGet err "message" = VUndefined ->
  let run := over {| Handler.chunks := (pre ++ errChunk :: rest)%list;
                     Handler.failure := failure |} systemPrompt messages in
  Handler.yielded run = map Handler.Text (Spec.texts pre) /\
  Handler.finished run
  = Throw (newError "CometAPI Error: CometAPI Error undefined: undefined").
Proof.
  intros Hpre Herr Hc Hm.
  destruct (HandlerFacts.createMessage_in_band cometApiModels cometApiDefaultModelId
              parseApiPrice fetch convertToOpenAiMessages deriveMaxTokens JSON_parse
              options pre errChunk rest failure err systemPrompt messages Hpre Herr)
    as [Hy Hf].
  cbv zeta in Hy, Hf |- *. now rewrite Hy, Hf, Hc, Hm.
Qed.


(** X16. Resolving the model never fails.  The identifier sent to the
    provider is the configured one, literally, even when the catalog does
    not know it (the default identifier when none is configured); the
    metadata is the catalog's entry for it, else the static entry of the
    default identifier, and so is always present when the static table
    lists its default. *)
Theorem model_selection create_stream create_completion systemPrompt messages prompt :
  is_Some (cometApiModels !! cometApiDefaultModelId) ->
  let chosen :=
    match Types.cometApiModelId options with
    | Some configured => configured
    | None => cometApiDefaultModelId
    end in
  exists models m,
    Fetcher.returned
      (Fetcher.getCometAPIModels cometApiModels parseApiPrice fetch (Some options))
    = Normal models /\
    fetchModel = Normal m /\
    Handler.id m = chosen /\
    Handler.info m = match models !! chosen with
                     | Some found => Some found
                     | None => cometApiModels !! cometApiDefaultModelId
                     end /\
    is_Some (Handler.info m) /\
    map Handler.model
        (Handler.gen_calls (createMessage create_stream systemPrompt messages))
    = [chosen] /\
    map Handler.model (Handler.calls (completePrompt create_completion prompt))
    = [chosen].
Proof.
  intros Hdefault chosen.
  destruct (HandlerFacts.createMessage_calls cometApiModels cometApiDefaultModelId
              parseApiPrice fetch convertToOpenAiMessages deriveMaxTokens JSON_parse
              options create_stream systemPrompt messages) as (m & Hm & ->).
  destruct (HandlerFacts.completePrompt_calls cometApiModels cometApiDefaultModelId
              parseApiPrice fetch deriveMaxTokens options create_completion prompt)
    as (m' & Hm' & ->).
  rewrite Hm in Hm'. injection Hm' as <-.
  pose proof Hm as Hfetch. unfold Handler.fetchModel in Hm.
  destruct (Fetcher.returned _) as [models|e] eqn:Hr; simpl in Hm; [|discriminate].
  injection Hm as <-. exists models, (Handler.getModel cometApiModels
    cometApiDefaultModelId deriveMaxTokens options models).
  repeat split; try assumption; try reflexivity.
  cbn [Handler.getModel Handler.info]. fold chosen.
  destruct (models !! chosen); [eauto | exact Hdefault].
Qed.

End Provider.

(** X24. For any resolved token limit, the streaming request carries
    [max_tokens] exactly when the limit is strictly positive, and then
    carries the limit itself; the single-shot request passes the limit on
    as it is. *)
Theorem max_tokens_by_path
    (cometApiModels : gmap string Types.ModelInfo) (cometApiDefaultModelId : string)
    (parseApiPrice : Fetcher.nullish string -> option float)
    (fetch : Fetcher.Request -> completion Fetcher.Response)
    (convertToOpenAiMessages : list value -> list value)
    (JSON_parse : string -> option value)
    (create_stream : Handler.ChatCompletionCreateParams -> completion Handler.Stream)
    (create_completion :
       Handler.ChatCompletionCreateParams -> completion Handler.ChatCompletion)
    (options : Types.ApiHandlerOptions)
    (systemPrompt prompt : string) (messages : list value) (limit : option Z) :
  map Handler.max_tokens
    (Handler.gen_calls
       (Handler.createMessage cometApiModels cometApiDefaultModelId parseApiPrice fetch
          convertToOpenAiMessages (fun _ _ _ => limit) JSON_parse create_stream
          options systemPrompt messages))
  = [match limit with
     | Some n => if 0 <? n then Some n else None
     | None => None
     end] /\
  map Handler.max_tokens
    (Handler.calls
       (Handler.completePrompt cometApiModels cometApiDefaultModelId parseApiPrice fetch
          (fun _ _ _ => limit) create_completion options prompt))
  = [limit].
Proof.
  split.
  - destruct (HandlerFacts.createMessage_calls cometApiModels cometApiDefaultModelId
                parseApiPrice fetch convertToOpenAiMessages (fun _ _ _ => limit)
                JSON_parse options create_stream systemPrompt messages)
      as (m & Hm & ->).
    apply HandlerFacts.resolved_maxTokens in Hm. simpl. rewrite Hm.
    destruct limit as [n|]; [|reflexivity].
    destruct (Z.eqb_spec n 0), (Z.gtb_spec n 0), (Z.ltb_spec 0 n);
      simpl; try reflexivity; lia.
  - destruct (HandlerFacts.completePrompt_calls cometApiModels cometApiDefaultModelId
                parseApiPrice fetch (fun _ _ _ => limit) options create_completion prompt)
      as (m & Hm & ->).
    apply HandlerFacts.resolved_maxTokens in Hm. simpl. now rewrite Hm.
Qed.

End HandlerExtras.

(* ===================================================================== *)
(** ** The settings view: properties                                      *)
(* ===================================================================== *)

Module WebviewFacts.

Lemma fold_insert_lookup (entries : list (string * Types.ModelInfo))
    (acc : gmap string Types.ModelInfo) (k : string) :
  NoDup (entries.*1) ->
  fold_left (fun modelRecord entry => <[fst entry := snd entry]> modelRecord) entries acc
    !! k
  = match (list_to_map entries : gmap string Types.ModelInfo) !! k with
    | Some v => Some v
    | None => acc !! k
    end.
Proof.
  revert acc. induction entries as [|[k0 v0] rest IH]; intros acc Hnd; simpl.
  - now rewrite lookup_empty.
  - apply NoDup_cons in Hnd as [Hfresh Hnd]. rewrite (IH _ Hnd).
    destruct (decide (k = k0)) as [->|Hne].
    + rewrite (not_elem_of_list_to_map_1 _ _ Hfresh), !lookup_insert_eq. reflexivity.
    + rewrite !lookup_insert_ne by congruence. reflexivity.
Qed.

(** The copy loop rebuilds the record it reads. *)
Lemma copyEntries_faithful (dynamic : gmap string Types.ModelInfo) :
  Webview.copyEntries (map_to_list dynamic) = dynamic.
Proof.
  apply map_eq. intros k. unfold Webview.copyEntries.
  rewrite fold_insert_lookup by apply NoDup_fst_map_to_list.
  rewrite list_to_map_to_list, lookup_empty. now destruct (dynamic !! k).
Qed.

(** X22. The model picker is given the dynamic catalog, unchanged,
    whenever that catalog has at least one entry, and the static table
    when it is empty or missing; so the picker's list is never empty as
    long as the static table is not. *)
Theorem available_models (cometApiModels : gmap string Types.ModelInfo) :
  (forall dynamic, dynamic <> ∅ ->
     Webview.availableModels cometApiModels (Some dynamic) = dynamic) /\
  Webview.availableModels cometApiModels (Some ∅) = cometApiModels /\
  Webview.availableModels cometApiModels None = cometApiModels /\
  (cometApiModels <> ∅ ->
   forall dynamicModels, Webview.availableModels cometApiModels dynamicModels <> ∅).
Proof.
  assert (Hcopy : forall dynamic, dynamic <> ∅ ->
            Webview.availableModels cometApiModels (Some dynamic) = dynamic).
  { intros dynamic Hne. unfold Webview.availableModels.
    destruct (map_to_list dynamic) as [|entry rest] eqn:E.
    - now apply map_to_list_empty_iff in E.
    - rewrite <- E. simpl. rewrite E. simpl. rewrite <- E. apply copyEntries_faithful. }
  split; [exact Hcopy|]. split; [|split].
  - unfold Webview.availableModels. now rewrite map_to_list_empty.
  - reflexivity.
  - intros Hstatic [dynamic|]; [|exact Hstatic].
    destruct (decide (dynamic = ∅)) as [->|Hne].
    + unfold Webview.availableModels. now rewrite map_to_list_empty.
    + now rewrite (Hcopy _ Hne).
Qed.

End WebviewFacts.

(* ===================================================================== *)
(** ** The further properties at concrete inputs                          *)
(* ===================================================================== *)

Module ExtraWitnesses.

Import JS.

Abbreviation resolve static fetch options :=
  (Fetcher.returned (Fetcher.getCometAPIModels static Examples.noPrices fetch options)).

Abbreviation generate options stream :=
  (Handler.createMessage StaticClaude.cometApiModels StaticClaude.cometApiDefaultModelId
     Examples.noPrices Examples.offline Examples.untranslated Examples.noLimit
     Examples.noJSON (fun _ => Normal stream) options "system" []).

Abbreviation complete response :=
  (Handler.completePrompt StaticClaude.cometApiModels StaticClaude.cometApiDefaultModelId
     Examples.noPrices Examples.offline Examples.noLimit (fun _ => Normal response)
     Examples.keyed "prompt").

Abbreviation generate_wire stream :=
  (Wire.createMessage StaticClaude.cometApiModels StaticClaude.cometApiDefaultModelId
     Examples.noPrices Examples.offline Examples.untranslated Examples.noLimit
     Examples.noJSON (fun _ => Normal stream) Examples.keyed "system" []).

Abbreviation complete_wire response :=
  (Wire.completePrompt StaticClaude.cometApiModels StaticClaude.cometApiDefaultModelId
     Examples.noPrices Examples.offline Examples.noLimit (fun _ => Normal response)
     Examples.keyed "prompt").

Lemma listing_validated :
  Spec.validated (Examples.answering Examples.listing
                    (Fetcher.modelsRequest (Fetcher.baseURL_of (Some Examples.keyed))
                       "test-key"))
                 Examples.parsedListing.
Proof. eexists _, Examples.listing. repeat split. Defined.

Lemma media_listing_validated :
  Spec.validated (Examples.answering Examples.mediaListing
                    (Fetcher.modelsRequest (Fetcher.baseURL_of (Some Examples.keyed))
                       "test-key"))
                 Examples.parsedMediaListing.
Proof. eexists _, Examples.mediaListing. repeat split. Defined.

(** X2 at [GPT-4o] and [gpt-4o]. *)
Lemma classification_ignores_case_witness :
  Fetcher.isTextGenerationModel "GPT-4o" = Fetcher.isTextGenerationModel "gpt-4o" /\
  Types.contextWindow (Fetcher.synthesize Examples.noPrices (Examples.parsedDescriptor "GPT-4o"))
  = 128000 /\
  Types.supportsImages (Fetcher.synthesize Examples.noPrices (Examples.parsedDescriptor "GPT-4o"))
  = true.
Proof.
  destruct (FetcherExtras.classification_ignores_case Examples.noPrices
              (Examples.parsedDescriptor "GPT-4o") (Examples.parsedDescriptor "gpt-4o")
              eq_refl) as (Hf & Hw & Hi).
  split; [exact Hf|]. split; [exact Hw | exact Hi].
Defined.

(** X4 at the Haiku entry, which the listing does not name. *)
Lemma unlisted_keys_keep_static_witness :
  exists merged,
    resolve StaticClaude.cometApiModels (Examples.answering Examples.listing)
      (Some Examples.keyed) = Normal merged /\
    merged !! "claude-3-5-haiku-20241022"
    = StaticClaude.cometApiModels !! "claude-3-5-haiku-20241022".
Proof.
  apply (FetcherExtras.unlisted_keys_keep_static StaticClaude.cometApiModels
           Examples.noPrices (Examples.answering Examples.listing) (Some Examples.keyed)
           "test-key" Examples.parsedListing "claude-3-5-haiku-20241022"
           eq_refl ltac:(discriminate) listing_validated).
  intros d [<- | [<- | [<- | []]]]; (discriminate || reflexivity).
Defined.

(** X5 at the Sonnet entry, whose static limit is 8192. *)
Lemma overlay_drops_static_limits_witness :
  exists merged info,
    resolve StaticClaude.cometApiModels (Examples.answering Examples.listing)
      (Some Examples.keyed) = Normal merged /\
    merged !! "claude-3-5-sonnet-20241022" = Some info /\
    Types.maxTokens info = None /\
    Types.supportsPromptCache info = false /\
    8192 <= Types.contextWindow info.
Proof.
  exact (FetcherExtras.overlay_drops_static_limits StaticClaude.cometApiModels
           Examples.noPrices (Examples.answering Examples.listing) (Some Examples.keyed)
           "test-key" Examples.parsedListing
           (Examples.parsedDescriptor "claude-3-5-sonnet-20241022")
           eq_refl ltac:(discriminate) listing_validated (or_introl eq_refl) eq_refl).
Defined.

(** X6 at a listing whose second descriptor has [name: null]. *)
Lemma one_null_field_discards_listing_witness :
  resolve StaticClaude.cometApiModels (Examples.answering Examples.listingWithNull)
    (Some Examples.keyed) = Normal StaticClaude.cometApiModels.
Proof.
  apply (FetcherExtras.one_null_field_discards_listing StaticClaude.cometApiModels
           Examples.noPrices (Examples.answering Examples.listingWithNull)
           (Some Examples.keyed) "test-key" _ ObjectClass _
           [Examples.descriptor "gpt-4o"; Examples.nullNameDescriptor]
           Examples.nullNameDescriptor "name"
           eq_refl ltac:(discriminate) eq_refl eq_refl eq_refl).
  - right. left. reflexivity.
  - do 3 right. left. reflexivity.
  - reflexivity.
Defined.

(** X7 at a descriptor with an added [permission] field. *)
Lemma unknown_field_is_ignored_witness :
  Fetcher.cometApiModelSchema
    (VObj ObjectClass [("id", VStr "gpt-4o"); ("permission", VArr [])])
  = Fetcher.cometApiModelSchema (VObj ObjectClass [("id", VStr "gpt-4o")]).
Proof.
  apply (FetcherExtras.unknown_field_is_ignored ObjectClass [("id", VStr "gpt-4o")] []
           "permission" (VArr [])).
  unfold Spec.descriptor_fields, Spec.optional_fields.
  intros H. repeat (destruct H as [H | H]; [discriminate|]). destruct H.
Defined.

(** X8 at a listing of media generators only. *)
Lemma filtered_listing_gives_static_witness :
  resolve StaticComet.cometApiModels (Examples.answering Examples.mediaListing)
    (Some Examples.keyed) = Normal StaticComet.cometApiModels.
Proof.
  apply (FetcherExtras.filtered_listing_gives_static StaticComet.cometApiModels
           Examples.noPrices (Examples.answering Examples.mediaListing)
           (Some Examples.keyed) "test-key" Examples.parsedMediaListing
           eq_refl ltac:(discriminate) media_listing_validated).
  repeat constructor.
Defined.

(** X9 at the keyed options. *)
Lemma resolver_request_matches_client_witness :
  Fetcher.requests
    (Fetcher.getCometAPIModels StaticClaude.cometApiModels Examples.noPrices
       Examples.offline (Some Examples.keyed))
  = [Fetcher.modelsRequest "https://api.cometapi.com/v1" "test-key"] /\
  Fetcher.url (Fetcher.modelsRequest "https://api.cometapi.com/v1" "test-key")
  = "https://api.cometapi.com/v1/models".
Proof.
  destruct (FetcherExtras.resolver_request_matches_client [] StaticClaude.cometApiModels
              Examples.noPrices Examples.offline Examples.keyed
              (Fetcher.modelsRequest "https://api.cometapi.com/v1" "test-key")
              (or_introl eq_refl)) as (Hone & Hurl & _).
  split; [exact Hone | exact Hurl].
Defined.

Lemma repeated_listing_validated :
  Spec.validated (Examples.answering Examples.repeatedListing
                    (Fetcher.modelsRequest (Fetcher.baseURL_of (Some Examples.keyed))
                       "test-key"))
                 Examples.parsedRepeatedListing.
Proof. eexists _, Examples.repeatedListing. repeat split. Defined.

(** X10 at a listing that names [gpt-4o] twice, with another model listed
    after it: the entry carries the prices of the second descriptor. *)
Lemma last_listed_descriptor_wins_witness :
  exists merged,
    Fetcher.returned
      (Fetcher.getCometAPIModels StaticClaude.cometApiModels Examples.listedPrices
         (Examples.answering Examples.repeatedListing) (Some Examples.keyed))
    = Normal merged /\
    merged !! "gpt-4o"
    = Some (Fetcher.synthesize Examples.listedPrices
              (Examples.parsedPriced "gpt-4o" "0.000002")) /\
    Types.inputPrice
      (Fetcher.synthesize Examples.listedPrices (Examples.parsedPriced "gpt-4o" "0.000002"))
    = Some 2%float /\
    Types.inputPrice
      (Fetcher.synthesize Examples.listedPrices (Examples.parsedPriced "gpt-4o" "0.000001"))
    = Some 1%float.
Proof.
  destruct (FetcherExtras.last_listed_descriptor_wins StaticClaude.cometApiModels
              Examples.listedPrices (Examples.answering Examples.repeatedListing)
              (Some Examples.keyed) "test-key" Examples.parsedRepeatedListing
              [Examples.parsedPriced "gpt-4o" "0.000001"]
              (Examples.parsedPriced "gpt-4o" "0.000002")
              [Examples.parsedDescriptor "o1"]
              eq_refl ltac:(discriminate) repeated_listing_validated eq_refl eq_refl
              ltac:(repeat constructor; discriminate)) as (merged & Hr & Hl).
  exists merged. split; [exact Hr|]. split; [exact Hl|]. split; reflexivity.
Defined.

(** X20 at [claude-sonnet-4-20250514]. *)
Lemma unrecognised_identifier_gets_defaults_witness :
  Types.contextWindow
    (Fetcher.synthesize Examples.noPrices
       (Examples.parsedDescriptor "claude-sonnet-4-20250514")) = 8192 /\
  Types.description
    (Fetcher.synthesize Examples.noPrices
       (Examples.parsedDescriptor "claude-sonnet-4-20250514"))
  = "claude-sonnet-4-20250514".
Proof.
  rewrite FetcherExtras.unrecognised_identifier_gets_defaults; [split; reflexivity|].
  right. split.
  - exists "", "-sonnet-4-20250514". reflexivity.
  - repeat constructor; intros Hc; apply StrFacts.includes_iff in Hc; discriminate.
Defined.

Abbreviation handler theorem :=
  (theorem StaticClaude.cometApiModels StaticClaude.cometApiDefaultModelId
     Examples.noPrices Examples.offline Examples.untranslated Examples.noLimit
     Examples.noJSON) (only parsing).


(** X12 at the same stream. *)
Lemma transport_failure_keeps_texts_witness :
  Handler.yielded (generate Examples.keyed Examples.interruptedStream)
  = [Handler.Text "partial"] /\
  Handler.finished (generate Examples.keyed Examples.interruptedStream)
  = Throw (newError "CometAPI Error: socket hang up").
Proof.
  apply (handler HandlerExtras.transport_failure_keeps_texts Examples.keyed
           [Examples.textChunk "partial" (Some Examples.usage_10_20)]
           (newError "socket hang up") "system" []).
  - repeat constructor.
  - intros [H | H]; discriminate.
Defined.

(** X14 at a stream in which two chunks carry usage. *)
Lemma latest_usage_wins_witness :
  Handler.yielded (generate Examples.keyed Examples.twoUsages)
  = [Handler.Text "A"; Handler.Text "B"; Handler.usageChunk Examples.usage_with_cost] /\
  Handler.finished (generate Examples.keyed Examples.twoUsages) = Normal tt.
Proof.
  apply (handler HandlerExtras.latest_usage_wins Examples.keyed
           [Examples.textChunk "A" (Some Examples.usage_10_20)]
           (Examples.textChunk "B" (Some Examples.usage_with_cost)) []
           Examples.usage_with_cost "system" []).
  - repeat constructor.
  - reflexivity.
  - constructor.
Defined.

(** X18 at a payload whose first detail is [null]. *)
Lemma null_detail_loses_retry_delay_witness :
  Handler.makeCometAPIErrorReadable Examples.decodeNullDetail
    (Examples.rateLimit (VStr Examples.rawPayload))
  = Normal ("Rate limit exceeded, try again later." ++ Str.LF ++ "Too Many Requests").
Proof.
  apply (HandlerExtras.null_detail_loses_retry_delay Examples.decodeNullDetail
           (Examples.rateLimit (VStr Examples.rawPayload)) Examples.payloadWithNullDetail
           [VNull; VObj ObjectClass [("retryDelay", VStr "30s")]] VNull).
  - left. reflexivity.
  - reflexivity.
  - reflexivity.
  - left. reflexivity.
  - reflexivity.
Defined.


(** X21 at a stream that loses [choices] after its first chunk. *)
Lemma answer_without_choices_witness :
  (exists message texts,
     Handler.result (complete_wire Examples.bodyWithoutChoices)
     = Throw (TypeError message) /\
     Handler.yielded (generate_wire Examples.brokenStream) = map Handler.Text texts /\
     Spec.text_deltas
       [Wire.of_chunk (Examples.textChunk "partial" (Some Examples.usage_10_20))] texts /\
     Handler.finished (generate_wire Examples.brokenStream)
     = Throw (newError ("CometAPI Error: " ++ message))) /\
  (forall body,
     Wire.response_error body = None -> Wire.response_choices body = Some [] ->
     Handler.result (complete_wire body) = Normal "").
Proof.
  apply (WireFacts.answer_without_choices StaticClaude.cometApiModels
           StaticClaude.cometApiDefaultModelId Examples.noPrices Examples.offline
           Examples.untranslated Examples.noLimit Examples.noJSON Examples.keyed
           [Wire.of_chunk (Examples.textChunk "partial" (Some Examples.usage_10_20))]
           (Examples.chunkWithoutChoices None)
           [Wire.of_chunk (Examples.textChunk "late" None)] None
           Examples.bodyWithoutChoices "system" [] "prompt").
  - repeat constructor.
  - reflexivity.
  - reflexivity.
  - reflexivity.
  - reflexivity.
Defined.

(** That stream, run. *)
Example broken_stream_run :
  Handler.yielded (generate_wire Examples.brokenStream) = [Handler.Text "partial"] /\
  Handler.finished (generate_wire Examples.brokenStream)
  = Throw (newError
             "CometAPI Error: Cannot read properties of undefined (reading '0')").
Proof.
  now destruct (WireFacts.createMessage_run StaticClaude.cometApiModels
                  StaticClaude.cometApiDefaultModelId Examples.noPrices Examples.offline
                  Examples.untranslated Examples.noLimit Examples.noJSON Examples.keyed
                  Examples.brokenStream "system" []) as [-> ->].
Qed.

(** X23 at a chunk with text and [error: null]. *)
Lemma empty_error_field_aborts_witness :
  Handler.yielded
    (generate Examples.keyed
       {| Handler.chunks := [Examples.nullErrorChunk]; Handler.failure := None |}) = [] /\
  Handler.finished
    (generate Examples.keyed
       {| Handler.chunks := [Examples.nullErrorChunk]; Handler.failure := None |})
  = Throw (newError "CometAPI Error: CometAPI Error undefined: undefined").
Proof.
  apply (handler HandlerExtras.empty_error_field_aborts Examples.keyed
           [] Examples.nullErrorChunk [] None VNull "system" []).
  - constructor.
  - reflexivity.
  - reflexivity.
  - reflexivity.
Defined.

(** X16 at options naming a model no catalog knows. *)
Lemma model_selection_witness :
  exists models m,
    resolve StaticClaude.cometApiModels Examples.offline (Some Examples.unknownModel)
    = Normal models /\
    Handler.fetchModel StaticClaude.cometApiModels StaticClaude.cometApiDefaultModelId
      Examples.noPrices Examples.offline Examples.noLimit Examples.unknownModel
    = Normal m /\
    Handler.id m = "nonexistent/model" /\
    Handler.info m = match models !! "nonexistent/model" with
                     | Some found => Some found
                     | None => StaticClaude.cometApiModels
                                 !! StaticClaude.cometApiDefaultModelId
                     end /\
    is_Some (Handler.info m) /\
    map Handler.model
        (Handler.gen_calls (generate Examples.unknownModel Examples.testStream))
    = ["nonexistent/model"] /\
    map Handler.model
        (Handler.calls
           (Handler.completePrompt StaticClaude.cometApiModels
              StaticClaude.cometApiDefaultModelId Examples.noPrices Examples.offline
              Examples.noLimit (fun _ => Normal Examples.emptyBody)
              Examples.unknownModel "prompt"))
    = ["nonexistent/model"].
Proof.
  apply (handler HandlerExtras.model_selection Examples.unknownModel
           (fun _ => Normal Examples.testStream) (fun _ => Normal Examples.emptyBody)
           "system" [] "prompt").
  eexists. reflexivity.
Defined.

End ExtraWitnesses.
